(** * ExpenseTracker: the expense store and the report guard of the page

    A shallow embedding of the React component [ExpenseTracker] of
    [app/page.tsx], in its later revision with the Delete All and Delete
    Category buttons: its three [useState] cells, the two [useEffect] hooks
    that load from and save to [localStorage], the event handlers, the
    derived values [filteredExpenses] and [totalAmount], and what the
    component returns of them: the rows of the table, the total, and the
    buttons of the history header.

    JavaScript values are modelled as the code has them:
    - a [string] is the sequence of its code units (code units below 256);
    - a [number] is an IEEE 754 binary64 value, Rocq's primitive [float];
    - an array is a [list], newest entry first as the code builds it;
    - [localStorage] is a finite map from keys to text.

    The builtins the component calls ([Number.parseFloat], [toString],
    [toFixed], [JSON.stringify], [JSON.parse]) follow ECMAScript on these
    values. *)

From Stdlib Require Import ZArith List String Ascii Bool Lia Floats.
From stdpp Require Import gmap strings.
Import ListNotations.

Local Open Scope string_scope.
Local Open Scope Z_scope.

#[local] Arguments String.append !s1 s2 : simpl nomatch.

(** ** JavaScript builtins used by the component *)

Module JS.

(** The Number type. *)
Definition number : Set := float.

(** [!s] on a string: only the empty string is falsy. *)
Definition falsy (s : string) : bool :=
  match s with
  | EmptyString => true
  | String _ _ => false
  end.

(** [x || y] on strings. *)
Definition or_else (x y : string) : string :=
  if falsy x then y else x.

(** *** [Number.parseFloat]

    ECMAScript: strip leading white space, take the longest prefix that is
    a [StrDecimalLiteral], and round its mathematical value to the nearest
    binary64 value (ties to even); [NaN] when there is no such prefix. *)

Definition code (c : ascii) : Z := Z.of_N (N_of_ascii c).

Definition is_white_space (c : ascii) : bool :=
  let n := code c in
  ((9 <=? n) && (n <=? 13)) || (n =? 32) || (n =? 160).

Definition is_digit (c : ascii) : bool :=
  let n := code c in (48 <=? n) && (n <=? 57).

Definition digit_value (c : ascii) : Z := code c - 48.

Definition digit_char (d : Z) : ascii := ascii_of_N (Z.to_N (48 + d)).

Fixpoint decimal_loop (fuel : nat) (n : Z) (acc : string) : string :=
  match fuel with
  | O => acc
  | S fuel' =>
      let acc' := String (digit_char (n mod 10)) acc in
      if n <? 10 then acc' else decimal_loop fuel' (n / 10) acc'
  end.

(** The decimal digits of [n], for [0 <= n], without leading zeros. *)
Definition decimal (n : Z) : string :=
  decimal_loop (S (Z.to_nat (Z.log2 n))) n "".

(** [n.toString()] for an integral number of magnitude below [1e21], such
    as [Date.now()]: the decimal digits, after a minus sign when negative. *)
Definition toString (n : Z) : string :=
  if n <? 0 then String "-" (decimal (- n)) else decimal n.

Fixpoint trim_start (s : string) : string :=
  match s with
  | String c s' => if is_white_space c then trim_start s' else s
  | EmptyString => s
  end.

(** Reads the leading decimal digits of [s]: their value continuing from
    [acc], how many there were, and the rest of the text. *)
Fixpoint scan_digits (acc : Z) (count : Z) (s : string) : Z * Z * string :=
  match s with
  | String c s' =>
      if is_digit c then scan_digits (10 * acc + digit_value c) (count + 1) s'
      else (acc, count, s)
  | EmptyString => (acc, count, s)
  end.

(** [ExponentPart]: [e] or [E], an optional sign, at least one digit.
    Without a digit the exponent is not part of the literal. *)
Definition scan_exponent (s : string) : Z :=
  match s with
  | String c s' =>
      if (code c =? 101) || (code c =? 69) then
        let (negative, s'') :=
          match s' with
          | String "-" t => (true, t)
          | String "+" t => (false, t)
          | _ => (false, s')
          end in
        let '(e, count, _) := scan_digits 0 0 s'' in
        if count =? 0 then 0 else if negative then - e else e
      else 0
  | EmptyString => 0
  end.

(** The binary64 value nearest to [n / d] (ties to even), for [0 <= n] and
    [0 < d], with the sign [negative]. The quotient is taken with at least 64
    significant bits and a sticky bit below them, then rounded once. *)
Definition round_ratio (negative : bool) (n d : Z) : number :=
  if n =? 0 then (if negative then neg_zero else zero)
  else
    let s := Z.max 0 (64 + Z.log2 d - Z.log2 n) in
    let q := (n * 2 ^ s) / d in
    let r := (n * 2 ^ s) mod d in
    let m := 2 * q + (if r =? 0 then 0 else 1) in
    SF2Prim (binary_normalize prec emax (if negative then - m else m) (- s - 1) negative).

(** The number denoted by the decimal [m * 10 ^ e], with [0 <= m]. *)
Definition round_decimal (negative : bool) (m e : Z) : number :=
  if 0 <=? e then round_ratio negative (m * 10 ^ e) 1
  else round_ratio negative m (10 ^ (- e)).

Definition starts_with (p s : string) : bool :=
  String.prefix p s.

(** [StrUnsignedDecimalLiteral] at the head of [s]. *)
Definition parse_unsigned (negative : bool) (s : string) : number :=
  if starts_with "Infinity" s then (if negative then neg_infinity else infinity)
  else
    let '(i, ni, s1) := scan_digits 0 0 s in
    match s1 with
    | String "." s2 =>
        let '(m, nf, s3) := scan_digits i 0 s2 in
        if (ni =? 0) && (nf =? 0) then nan
        else round_decimal negative m (scan_exponent s3 - nf)
    | _ =>
        if ni =? 0 then nan
        else round_decimal negative i (scan_exponent s1)
    end.

Definition parseFloat (input : string) : number :=
  match trim_start input with
  | String "-" s => parse_unsigned true s
  | String "+" s => parse_unsigned false s
  | s => parse_unsigned false s
  end.


(** *** [Number::toString] and [Number.prototype.toFixed] *)

(** The exact value of a finite number, sign apart, as a fraction. *)
Definition exact_ratio (x : number) : Z * Z :=
  match Prim2SF x with
  | S754_finite _ m e =>
      if 0 <=? e then (Zpos m * 2 ^ e, 1) else (Zpos m, 2 ^ (- e))
  | _ => (0, 1)
  end.

(** [num / den < 10 ^ n]. *)
Definition below_pow10 (num den n : Z) : bool :=
  if 0 <=? n then num <? den * 10 ^ n else num * 10 ^ (- n) <? den.

(** The [n] with [10 ^ (n - 1) <= num / den < 10 ^ n], found from an
    estimate by the binary logarithm that is at most two below it. *)
Definition magnitude (num den : Z) : Z :=
  let e0 := ((Z.log2 num - Z.log2 den) * 1233) / 4096 in
  if below_pow10 num den e0 then e0
  else if below_pow10 num den (e0 + 1) then e0 + 1
  else e0 + 2.

(** [s * 10 ^ p] is a decimal that reads back as [x]. *)
Definition reads_back (x : number) (s p : Z) : bool :=
  (0 <? s) && Leibniz.eqb (round_decimal false s p) x.

(** The [k]-digit decimals next to [num / den] on either side, for the
    magnitude [n]; of those that read back as [x] the nearer one, the even
    one on a tie. The upper neighbour [10 ^ k] is written [1] with a larger
    exponent. *)
Definition digits_at (x : number) (num den n k : Z) : option (Z * Z) :=
  let p := n - k in
  let a := if 0 <=? p then num else num * 10 ^ (- p) in
  let b := if 0 <=? p then den * 10 ^ p else den in
  let lo := a / b in
  let r := a mod b in
  let hi := if lo + 1 =? 10 ^ k then (1, p + k) else (lo + 1, p) in
  let lo_ok := reads_back x lo p in
  let hi_ok := reads_back x (fst hi) (snd hi) in
  let upper := match 2 * r ?= b with
               | Gt => true
               | Lt => false
               | Eq => Z.odd lo
               end in
  if lo_ok && hi_ok then Some (if upper then hi else (lo, p))
  else if lo_ok then Some (lo, p)
  else if hi_ok then Some hi
  else None.

Fixpoint first_digits (x : number) (num den n : Z) (ks : list Z) : option (Z * Z) :=
  match ks with
  | [] => None
  | k :: ks' =>
      match digits_at x num den n k with
      | Some r => Some r
      | None => first_digits x num den n ks'
      end
  end.

(** The exact decimal expansion [s * 10 ^ p] of a finite number. *)
Definition exact_decimal (x : number) : Z * Z :=
  match Prim2SF x with
  | S754_finite _ m e =>
      if 0 <=? e then (Zpos m * 2 ^ e, 0) else (Zpos m * 5 ^ (- e), e)
  | _ => (0, 0)
  end.

(** The digits [s] and exponent [p] of [Number::toString] for a finite
    [x > 0]: as few digits as read back as [x]. Seventeen digits always
    do; the exact expansion stands behind them so that the result reads
    back as [x] whatever the search finds. *)
Definition shortest (x : number) : Z * Z :=
  let (num, den) := exact_ratio x in
  match first_digits x num den (magnitude num den)
          [1; 2; 3; 4; 5; 6; 7; 8; 9; 10; 11; 12; 13; 14; 15; 16; 17] with
  | Some r => r
  | None => exact_decimal x
  end.

Fixpoint zeros (n : nat) : string :=
  match n with
  | O => ""
  | S n' => String "0" (zeros n')
  end.

Fixpoint split_at (n : nat) (s : string) : string * string :=
  match n, s with
  | S n', String c s' => let (a, b) := split_at n' s' in (String c a, b)
  | _, _ => ("", s)
  end.

(** Steps 5 to 9 of [Number::toString]: the digits [ds] of [s], with
    [k = length ds] and [n = p + k]. *)
Definition format_digits (ds : string) (p : Z) : string :=
  let k := Z.of_nat (String.length ds) in
  let n := p + k in
  if (k <=? n) && (n <=? 21) then ds +:+ zeros (Z.to_nat (n - k))
  else if (0 <? n) && (n <=? 21) then
    let (a, b) := split_at (Z.to_nat n) ds in a +:+ String "." b
  else if (-6 <? n) && (n <=? 0) then
    String "0" (String "." (zeros (Z.to_nat (- n)) +:+ ds))
  else
    let e := n - 1 in
    let exponent := String "e" (String (if e <? 0 then "-"%char else "+"%char) (decimal (Z.abs e))) in
    match ds with
    | String d EmptyString => String d exponent
    | String d rest => String d (String "." (rest +:+ exponent))
    | EmptyString => exponent
    end.

(** [Number::toString(x)], radix 10. *)
Definition number_toString (x : number) : string :=
  if is_nan x then "NaN"
  else if is_zero x then "0"
  else if is_infinity x then (if (x <? 0)%float then "-Infinity" else "Infinity")
  else
    let (s, p) := shortest (abs x) in
    let text := format_digits (decimal s) p in
    if (x <? 0)%float then String "-" text else text.

(** [x.toFixed(f)] for [0 <= f <= 100]: the integer nearest to
    [x * 10 ^ f], the larger one on a tie, with [f] digits after the point. *)
Definition toFixed (x : number) (f : Z) : string :=
  if negb (is_finite x) then number_toString x
  else if (abs x <? 1e21)%float then
    let (num, den) := exact_ratio x in
    let n := (2 * num * 10 ^ f + den) / (2 * den) in
    let m := decimal n in
    let m := zeros (Z.to_nat (f + 1) - String.length m) +:+ m in
    let (a, b) := split_at (String.length m - Z.to_nat f) m in
    let text := if f =? 0 then m else a +:+ String "." b in
    if (x <? 0)%float then String "-" text else text
  else number_toString x.

End JS.

(** ** [JSON.stringify] and [JSON.parse] *)

Module JSON.
Import JS.

(** The values [JSON.parse] returns; [JSON.stringify] is applied to the
    same values. *)
Inductive value : Type :=
| Null
| Bool (b : bool)
| Num (x : number)
| Str (s : string)
| Arr (elements : list value)
| Obj (properties : list (string * value)).

Definition quotation_mark : ascii := "034"%char.
Definition reverse_solidus : ascii := "\"%char.

Definition hex_char (d : Z) : ascii :=
  if d <? 10 then digit_char d else ascii_of_N (Z.to_N (87 + d)).

(** One code unit inside [QuoteJSONString]. *)
Definition quote_unit (c : ascii) : string :=
  let n := code c in
  if n =? 8 then "\b"
  else if n =? 9 then "\t"
  else if n =? 10 then "\n"
  else if n =? 12 then "\f"
  else if n =? 13 then "\r"
  else if n =? 34 then String reverse_solidus (String quotation_mark "")
  else if n =? 92 then "\\"
  else if n <? 32 then
    String reverse_solidus
      (String "u" (String "0" (String "0"
        (String (hex_char (n / 16)) (String (hex_char (n mod 16)) "")))))
  else String c "".

Fixpoint quote_units (s : string) : string :=
  match s with
  | EmptyString => String quotation_mark ""
  | String c s' => quote_unit c +:+ quote_units s'
  end.

Definition quote (s : string) : string :=
  String quotation_mark (quote_units s).

Definition comma_separated (parts : list string) : string :=
  String.concat "," parts.

(** [SerializeJSONProperty] without indentation: a number that is not
    finite is written [null]. *)
Fixpoint stringify (v : value) : string :=
  match v with
  | Null => "null"
  | Bool true => "true"
  | Bool false => "false"
  | Num x => if is_finite x then number_toString x else "null"
  | Str s => quote s
  | Arr elements =>
      String "[" (comma_separated (map stringify elements) +:+ "]")
  | Obj properties =>
      String "{"
        (comma_separated
           (map (fun kv => quote (fst kv) +:+ String ":" (stringify (snd kv)))
                properties) +:+ "}")
  end.

(** White space between tokens: tab, line feed, carriage return, space. *)
Definition is_json_space (c : ascii) : bool :=
  let n := code c in (n =? 9) || (n =? 10) || (n =? 13) || (n =? 32).

Fixpoint skip_space (s : string) : string :=
  match s with
  | String c s' => if is_json_space c then skip_space s' else s
  | EmptyString => s
  end.

(** The text after the literal [p] at the head of [s], if it is there. *)
Fixpoint strip_prefix (p s : string) : option string :=
  match p, s with
  | EmptyString, _ => Some s
  | String a p', String b s' => if Ascii.eqb a b then strip_prefix p' s' else None
  | String _ _, EmptyString => None
  end.

Definition hex_value (c : ascii) : option Z :=
  let n := code c in
  if (48 <=? n) && (n <=? 57) then Some (n - 48)
  else if (97 <=? n) && (n <=? 102) then Some (n - 87)
  else if (65 <=? n) && (n <=? 70) then Some (n - 55)
  else None.

Definition unit_of (n : Z) : ascii := ascii_of_N (Z.to_N n).

(** The characters of a string literal after its opening quotation mark,
    and the text after the closing one. An escape that names a code unit
    of 256 or more denotes a string outside this model and is refused. *)
Fixpoint parse_string (s : string) : option (string * string) :=
  match s with
  | EmptyString => None
  | String c s' =>
      if code c =? 34 then Some ("", s')
      else if code c =? 92 then
        match s' with
        | String e s'' =>
            let continue (u : ascii) (rest : option (string * string)) :=
              match rest with
              | Some (t, r) => Some (String u t, r)
              | None => None
              end in
            if code e =? 34 then continue quotation_mark (parse_string s'')
            else if code e =? 92 then continue reverse_solidus (parse_string s'')
            else if code e =? 47 then continue "/"%char (parse_string s'')
            else if code e =? 98 then continue (unit_of 8) (parse_string s'')
            else if code e =? 102 then continue (unit_of 12) (parse_string s'')
            else if code e =? 110 then continue (unit_of 10) (parse_string s'')
            else if code e =? 114 then continue (unit_of 13) (parse_string s'')
            else if code e =? 116 then continue (unit_of 9) (parse_string s'')
            else if code e =? 117 then
              match s'' with
              | String h1 (String h2 (String h3 (String h4 s3))) =>
                  match hex_value h1, hex_value h2, hex_value h3, hex_value h4 with
                  | Some a, Some b, Some c', Some d =>
                      if (a =? 0) && (b =? 0)
                      then continue (unit_of (16 * c' + d)) (parse_string s3)
                      else None
                  | _, _, _, _ => None
                  end
              | _ => None
              end
            else None
        | EmptyString => None
        end
      else if code c <? 32 then None
      else
        match parse_string s' with
        | Some (t, r) => Some (String c t, r)
        | None => None
        end
  end.

(** The exponent of a number: absent, or [e]/[E], an optional sign and at
    least one digit. *)
Definition parse_exponent (s : string) : option (Z * string) :=
  match s with
  | String c s' =>
      if (code c =? 101) || (code c =? 69) then
        let (negative, s'') :=
          match s' with
          | String "-" t => (true, t)
          | String "+" t => (false, t)
          | _ => (false, s')
          end in
        let '(e, count, rest) := scan_digits 0 0 s'' in
        if count =? 0 then None
        else Some (if negative then - e else e, rest)
      else Some (0, s)
  | EmptyString => Some (0, s)
  end.

(** The fraction and exponent after the integer part [i]. *)
Definition parse_fraction (negative : bool) (i : Z) (s : string) : option (value * string) :=
  match s with
  | String "." s1 =>
      let '(m, nf, s2) := scan_digits i 0 s1 in
      if nf =? 0 then None
      else
        match parse_exponent s2 with
        | Some (e, rest) => Some (Num (round_decimal negative m (e - nf)), rest)
        | None => None
        end
  | _ =>
      match parse_exponent s with
      | Some (e, rest) => Some (Num (round_decimal negative i e), rest)
      | None => None
      end
  end.

(** A number after its optional minus sign: [0] or digits without a
    leading zero, then fraction and exponent. *)
Definition parse_number (negative : bool) (s : string) : option (value * string) :=
  match s with
  | String "0" s' => parse_fraction negative 0 s'
  | String c _ =>
      if is_digit c then
        let '(i, _, s1) := scan_digits 0 0 s in parse_fraction negative i s1
      else None
  | EmptyString => None
  end.

(** The elements of an array after the first: [, value]* then the
    closing bracket. *)
Fixpoint parse_elements (parse_value : string -> option (value * string))
    (fuel : nat) (s : string) : option (list value * string) :=
  match fuel with
  | O => None
  | S fuel' =>
      match skip_space s with
      | String "]" rest => Some ([], rest)
      | String "," s1 =>
          match parse_value s1 with
          | Some (v, s2) =>
              match parse_elements parse_value fuel' s2 with
              | Some (vs, rest) => Some (v :: vs, rest)
              | None => None
              end
          | None => None
          end
      | _ => None
      end
  end.

(** One member [string : value] of an object. *)
Definition parse_member (parse_value : string -> option (value * string))
    (s : string) : option (string * value * string) :=
  match skip_space s with
  | String c s1 =>
      if code c =? 34 then
        match parse_string s1 with
        | Some (k, s2) =>
            match skip_space s2 with
            | String ":" s3 =>
                match parse_value s3 with
                | Some (v, rest) => Some (k, v, rest)
                | None => None
                end
            | _ => None
            end
        | None => None
        end
      else None
  | EmptyString => None
  end.

Fixpoint parse_members (parse_value : string -> option (value * string))
    (fuel : nat) (s : string) : option (list (string * value) * string) :=
  match fuel with
  | O => None
  | S fuel' =>
      match skip_space s with
      | String "}" rest => Some ([], rest)
      | String "," s1 =>
          match parse_member parse_value s1 with
          | Some (k, v, s2) =>
              match parse_members parse_value fuel' s2 with
              | Some (ps, rest) => Some ((k, v) :: ps, rest)
              | None => None
              end
          | None => None
          end
      | _ => None
      end
  end.

(** One value and the text after it. [fuel] bounds the nesting and the
    number of elements; the length of the text is enough. *)
Fixpoint parse_value (fuel : nat) (s : string) : option (value * string) :=
  match fuel with
  | O => None
  | S fuel' =>
      match skip_space s with
      | String c s1 =>
          if code c =? 34 then
            match parse_string s1 with
            | Some (t, rest) => Some (Str t, rest)
            | None => None
            end
          else if code c =? 91 then
            match skip_space s1 with
            | String "]" rest => Some (Arr [], rest)
            | _ =>
                match parse_value fuel' s1 with
                | Some (v, s2) =>
                    match parse_elements (parse_value fuel') fuel' s2 with
                    | Some (vs, rest) => Some (Arr (v :: vs), rest)
                    | None => None
                    end
                | None => None
                end
            end
          else if code c =? 123 then
            match skip_space s1 with
            | String "}" rest => Some (Obj [], rest)
            | _ =>
                match parse_member (parse_value fuel') s1 with
                | Some (k, v, s2) =>
                    match parse_members (parse_value fuel') fuel' s2 with
                    | Some (ps, rest) => Some (Obj ((k, v) :: ps), rest)
                    | None => None
                    end
                | None => None
                end
            end
          else if code c =? 45 then parse_number true s1
          else
            match strip_prefix "null" (String c s1),
                  strip_prefix "true" (String c s1),
                  strip_prefix "false" (String c s1) with
            | Some rest, _, _ => Some (Null, rest)
            | _, Some rest, _ => Some (Bool true, rest)
            | _, _, Some rest => Some (Bool false, rest)
            | None, None, None => parse_number false (String c s1)
            end
      | EmptyString => None
      end
  end.

(** [JSON.parse(text)]: [None] stands for the [SyntaxError] it throws. *)
Definition parse (text : string) : option value :=
  match parse_value (S (String.length text)) text with
  | Some (v, rest) =>
      match skip_space rest with
      | EmptyString => Some v
      | String _ _ => None
      end
  | None => None
  end.

End JSON.

(** ** The component *)

(** [interface Expense]. *)
Record Expense : Type := {
  id : string;
  date : string;
  category : string;
  amount : JS.number;
  description : string
}.

(** The [formData] cell: the four fields as typed text. *)
Module Form.
Record t : Type := {
  date : string;
  category : string;
  amount : string;
  description : string
}.
End Form.

(** The three [useState] cells. *)
Record State : Type := {
  expenses : list Expense;
  filterCategory : string;
  formData : Form.t
}.

(** What the environment answers during one event. *)
Record Env : Type := {
  Date_now : Z;                    (* Date.now(), whole milliseconds *)
  today : string;                  (* new Date().toISOString().split("T")[0] *)
  localeDate : string;             (* new Date().toLocaleDateString() *)
  confirm : string -> bool;        (* window.confirm(message) *)
  pageWidth : JS.number;           (* doc.internal.pageSize.getWidth() *)
  pageHeight : JS.number;          (* doc.internal.pageSize.getHeight() *)
  finalY : JS.number;              (* doc.lastAutoTable.finalY *)
  pdfError : option string         (* what jsPDF or autoTable throws, if anything *)
}.

(** The calls made on the jsPDF document, in order. *)
Record TableOptions : Type := {
  head : list (list string);
  body : list (list string);
  startY : JS.number;
  theme : string;
  headFillColor : list Z;
  headTextColor : list Z;
  headFontStyle : string;
  headFontSize : Z;
  bodyTextColor : list Z;
  bodyFontSize : Z;
  alternateRowFillColor : list Z;
  rightAlignedColumn : Z;
  marginLeft : Z;
  marginRight : Z
}.

Inductive PdfCall : Type :=
| SetFontSize (size : Z)
| SetFont (name style : string)
| Text (text : string) (x y : JS.number) (align : string)
| AutoTable (options : TableOptions)
| Save (filename : string).

(** What an event does besides updating the cells. *)
Inductive Effect : Type :=
| Alert (message : string)
| Confirm (message : string) (answer : bool)
| ConsoleError (message : string)
| NewPdf (calls : list PdfCall).

(** The result of one event handler: the cells after it, whether it called
    [setExpenses], and its effects in order. *)
Record Outcome : Type := {
  next : State;
  expensesSet : bool;
  emitted : list Effect
}.

Definition categories : list string :=
  ["Food"; "Transport"; "Entertainment"; "Utilities"; "Health"; "Shopping"; "Other"].

Definition uniqueCategories : list string := "All" :: categories.

Definition initialState (env : Env) : State :=
  {| expenses := [];
     filterCategory := "All";
     formData := {| Form.date := today env;
                    Form.category := "Food";
                    Form.amount := "";
                    Form.description := "" |} |}.

Definition setExpenses (l : list Expense) (s : State) : State :=
  {| expenses := l; filterCategory := filterCategory s; formData := formData s |}.

Definition setFormData (f : Form.t) (s : State) : State :=
  {| expenses := expenses s; filterCategory := filterCategory s; formData := f |}.

Definition setFilterCategory (c : string) (s : State) : State :=
  {| expenses := expenses s; filterCategory := c; formData := formData s |}.

Definition unchanged (s : State) (effects : list Effect) : Outcome :=
  {| next := s; expensesSet := false; emitted := effects |}.

(** [{...prev, [name]: value}] for the four inputs of the form. *)
Definition handleInputChange (name value : string) (env : Env) (s : State) : Outcome :=
  let prev := formData s in
  let f :=
    if String.eqb name "date" then
      {| Form.date := value; Form.category := Form.category prev;
         Form.amount := Form.amount prev; Form.description := Form.description prev |}
    else if String.eqb name "category" then
      {| Form.date := Form.date prev; Form.category := value;
         Form.amount := Form.amount prev; Form.description := Form.description prev |}
    else if String.eqb name "amount" then
      {| Form.date := Form.date prev; Form.category := Form.category prev;
         Form.amount := value; Form.description := Form.description prev |}
    else if String.eqb name "description" then
      {| Form.date := Form.date prev; Form.category := Form.category prev;
         Form.amount := Form.amount prev; Form.description := value |}
    else prev in
  unchanged (setFormData f s) [].

(** [const newExpense: Expense = {...}] in [handleAddExpense]. *)
Definition newExpense (env : Env) (f : Form.t) : Expense :=
  {| id := JS.toString (Date_now env);
     date := Form.date f;
     category := Form.category f;
     amount := JS.parseFloat (Form.amount f);
     description := Form.description f |}.

Definition handleAddExpense (env : Env) (s : State) : Outcome :=
  let f := formData s in
  if JS.falsy (Form.date f) || JS.falsy (Form.category f) || JS.falsy (Form.amount f) then
    unchanged s [Alert "Please fill in all required fields"]
  else
    let newExpense := newExpense env f in
    {| next :=
         setFormData {| Form.date := today env;
                        Form.category := "Food";
                        Form.amount := "";
                        Form.description := "" |}
           (setExpenses (newExpense :: expenses s) s);
       expensesSet := true;
       emitted := [] |}.

Definition handleDeleteExpense (i : string) (env : Env) (s : State) : Outcome :=
  {| next := setExpenses (List.filter (fun expense => negb (String.eqb (id expense) i)) (expenses s)) s;
     expensesSet := true;
     emitted := [] |}.

Definition deleteAllPrompt : string :=
  "Are you sure you want to delete ALL expenses? This action cannot be undone.".

Definition handleDeleteAll (env : Env) (s : State) : Outcome :=
  if confirm env deleteAllPrompt then
    {| next := setExpenses [] s;
       expensesSet := true;
       emitted := [Confirm deleteAllPrompt true] |}
  else unchanged s [Confirm deleteAllPrompt false].

Definition deleteByCategoryPrompt (count : nat) (c : string) : string :=
  "Are you sure you want to delete all " +:+ JS.toString (Z.of_nat count)
  +:+ " expense(s) in category " +:+ String JSON.quotation_mark c
  +:+ String JSON.quotation_mark "? This action cannot be undone.".

Definition handleDeleteByCategory (env : Env) (s : State) : Outcome :=
  if String.eqb (filterCategory s) "All" then
    unchanged s [Alert "Please select a specific category to delete"]
  else
    let count :=
      length (List.filter (fun expense => String.eqb (category expense) (filterCategory s))
                          (expenses s)) in
    if Nat.eqb count 0 then
      unchanged s [Alert ("No expenses found in category: " +:+ filterCategory s)]
    else
      let prompt := deleteByCategoryPrompt count (filterCategory s) in
      if confirm env prompt then
        {| next :=
             setExpenses
               (List.filter (fun expense => negb (String.eqb (category expense) (filterCategory s)))
                            (expenses s)) s;
           expensesSet := true;
           emitted := [Confirm prompt true] |}
      else unchanged s [Confirm prompt false].

Definition filteredExpenses (s : State) : list Expense :=
  if String.eqb (filterCategory s) "All" then expenses s
  else List.filter (fun expense => String.eqb (category expense) (filterCategory s)) (expenses s).

Definition totalAmount (s : State) : JS.number :=
  fold_left (fun sum expense => (sum + amount expense)%float) (filteredExpenses s) 0%float.

(** The calls of [downloadPDF] up to [doc.save]. *)
Definition reportCalls (env : Env) (s : State) : list PdfCall :=
  let half := (pageWidth env / 2)%float in
  let filtered := negb (String.eqb (filterCategory s) "All") in
  let tableData :=
    map (fun expense =>
           [date expense; category expense; JS.toFixed (amount expense) 2;
            JS.or_else (description expense) "-"])
        (filteredExpenses s) in
  [SetFontSize 24; SetFont "" "bold";
   Text "Expense Tracker Report" half 20%float "center";
   SetFontSize 10; SetFont "" "normal";
   Text ("Report Generated: " +:+ localeDate env) half 28%float "center"]
  ++ (if filtered then [Text ("Category: " +:+ filterCategory s) half 34%float "center"] else [])
  ++ [AutoTable
        {| head := [["Date"; "Category"; "Amount (INR)"; "Description"]];
           body := tableData;
           startY := if filtered then 42%float else 36%float;
           theme := "grid";
           headFillColor := [0; 0; 0];
           headTextColor := [255; 255; 255];
           headFontStyle := "bold";
           headFontSize := 11;
           bodyTextColor := [0; 0; 0];
           bodyFontSize := 10;
           alternateRowFillColor := [240; 240; 240];
           rightAlignedColumn := 2;
           marginLeft := 12;
           marginRight := 12 |};
      SetFont "" "bold"; SetFontSize 12;
      Text ("Total Amount: INR " +:+ JS.toFixed (totalAmount s) 2) half (finalY env + 10)%float "center";
      SetFontSize 8; SetFont "" "normal";
      Text "This is an automatically generated report from Expense Tracker"
           half (pageHeight env - 10)%float "center";
      Save ("expense-report-" +:+ today env +:+ ".pdf")].

Definition downloadPDF (env : Env) (s : State) : Outcome :=
  if Nat.eqb (length (filteredExpenses s)) 0 then
    unchanged s [Alert "No expenses to download"]
  else
    match pdfError env with
    | None => unchanged s [NewPdf (reportCalls env s)]
    | Some error =>
        unchanged s [ConsoleError "Error generating PDF:"; Alert "Failed to generate PDF"]
    end.

(** ** Persistence *)

Definition expense_to_json (e : Expense) : JSON.value :=
  JSON.Obj [("id", JSON.Str (id e));
            ("date", JSON.Str (date e));
            ("category", JSON.Str (category e));
            ("amount", JSON.Num (amount e));
            ("description", JSON.Str (description e))].

Definition expenses_to_json (l : list Expense) : JSON.value :=
  JSON.Arr (map expense_to_json l).

(** [object.key]: the value of the last member of that name. *)
Fixpoint property (key : string) (members : list (string * JSON.value)) : option JSON.value :=
  match members with
  | [] => None
  | (k, v) :: rest =>
      match property key rest with
      | Some v' => Some v'
      | None => if String.eqb k key then Some v else None
      end
  end.

(** A parsed value read at the type [Expense]. *)
Definition expense_of_json (v : JSON.value) : option Expense :=
  match v with
  | JSON.Obj members =>
      match property "id" members, property "date" members, property "category" members,
            property "amount" members, property "description" members with
      | Some (JSON.Str i), Some (JSON.Str d), Some (JSON.Str c),
        Some (JSON.Num a), Some (JSON.Str t) =>
          Some {| id := i; date := d; category := c; amount := a; description := t |}
      | _, _, _, _, _ => None
      end
  | _ => None
  end.

Fixpoint all_expenses (vs : list JSON.value) : option (list Expense) :=
  match vs with
  | [] => Some []
  | v :: vs' =>
      match expense_of_json v, all_expenses vs' with
      | Some e, Some l => Some (e :: l)
      | _, _ => None
      end
  end.

(** A parsed value read at the type [Expense[]]. *)
Definition expenses_of_json (v : JSON.value) : option (list Expense) :=
  match v with
  | JSON.Arr vs => all_expenses vs
  | _ => None
  end.

(** The component with its surroundings. *)
Record World : Type := {
  state : State;
  localStorage : gmap string string;
  log : list Effect
}.

(** The second effect: [localStorage.setItem("expenses", JSON.stringify(expenses))]. *)
Definition saveEffect (l : list Expense) (store : gmap string string) : gmap string string :=
  <["expenses" := JSON.stringify (expenses_to_json l)]> store.

(** One event: the handler runs on the cells of the current render, then the
    save effect runs if [expenses] was set. *)
Definition dispatch (handler : Env -> State -> Outcome) (env : Env) (w : World) : World :=
  let o := handler env (state w) in
  {| state := next o;
     localStorage :=
       if expensesSet o then saveEffect (expenses (next o)) (localStorage w)
       else localStorage w;
     log := log w ++ emitted o |}.

(** What the first effect does with the stored text. *)
Inductive Loaded : Type :=
| Nothing
| ParseFailure
| Parsed (v : JSON.value).

Definition loadEffect (store : gmap string string) : Loaded :=
  match store !! "expenses" with
  | Some savedExpenses =>
      if JS.falsy savedExpenses then Nothing
      else
        match JSON.parse savedExpenses with
        | Some v => Parsed v
        | None => ParseFailure
        end
  | None => Nothing
  end.

(** The component after mounting. [Broken v] is the component whose
    [expenses] cell holds the parsed value [v] that is not an [Expense[]]. *)
Inductive Mounted : Type :=
| Running (w : World)
| Broken (v : JSON.value).

(** Mounting: the first render has [expenses = []]; the load effect reads
    the store, the save effect then writes the empty collection; if the
    load effect set [expenses], the next render saves that. Loaded entries
    are kept at the five fields of [Expense]. *)
Definition mount (env : Env) (store : gmap string string) : Mounted :=
  let first := saveEffect [] store in
  match loadEffect store with
  | Nothing =>
      Running {| state := initialState env; localStorage := first; log := [] |}
  | ParseFailure =>
      Running {| state := initialState env; localStorage := first;
                 log := [ConsoleError "Failed to parse expenses:"] |}
  | Parsed v =>
      match expenses_of_json v with
      | Some l =>
          Running {| state := setExpenses l (initialState env);
                     localStorage := saveEffect l first;
                     log := [] |}
      | None => Broken v
      end
  end.

(** The events of the page and their handlers. *)
Inductive Event : Type :=
| InputChange (name value : string)
| SelectFilter (c : string)
| ClickAdd
| ClickDelete (i : string)
| ClickDeleteAll
| ClickDeleteCategory
| ClickDownload.

Definition handler (ev : Event) : Env -> State -> Outcome :=
  match ev with
  | InputChange name value => handleInputChange name value
  | SelectFilter c => fun _ s => unchanged (setFilterCategory c s) []
  | ClickAdd => handleAddExpense
  | ClickDelete i => handleDeleteExpense i
  | ClickDeleteAll => handleDeleteAll
  | ClickDeleteCategory => handleDeleteByCategory
  | ClickDownload => downloadPDF
  end.

(** A session: events one after the other, each with the environment's
    answers at that moment. *)
Fixpoint run (steps : list (Env * Event)) (w : World) : World :=
  match steps with
  | [] => w
  | (env, ev) :: rest => run rest (dispatch (handler ev) env w)
  end.

(** The sum of the amounts of a collection, accumulated in collection order
    from zero as binary64 addition does. *)
Definition sum_amounts (l : list Expense) : JS.number :=
  fold_left (fun sum expense => (sum + amount expense)%float) l 0%float.

(** The clock readings of the add clicks of a session, in order. *)
Fixpoint add_times (steps : list (Env * Event)) : list Z :=
  match steps with
  | [] => []
  | (env, ClickAdd) :: rest => Date_now env :: add_times rest
  | _ :: rest => add_times rest
  end.

(** A number that JSON text can carry: finite, and not negative zero. *)
Definition json_number (x : JS.number) : bool :=
  match classify x with
  | NaN | PInf | NInf | NZero => false
  | _ => true
  end.

(** The value of a run of decimal digits, continuing from [acc]. *)
Fixpoint digits_value (acc : Z) (s : string) : Z :=
  match s with
  | EmptyString => acc
  | String c s' => digits_value (10 * acc + JS.digit_value c) s'
  end.

Fixpoint all_digits (s : string) : bool :=
  match s with
  | EmptyString => true
  | String c s' => JS.is_digit c && all_digits s'
  end.

(** The text does not go on with a digit. *)
Definition no_leading_digit (s : string) : bool :=
  match s with
  | String c _ => negb (JS.is_digit c)
  | EmptyString => true
  end.

(** The text after a number does not continue it: no digit, point or
    exponent mark comes next. *)
Definition ends_number (s : string) : bool :=
  match s with
  | String c _ =>
      negb (JS.is_digit c || (JS.code c =? 46) || (JS.code c =? 101) || (JS.code c =? 69))
  | EmptyString => true
  end.

(** The exponent part that [Number::toString] writes for [e]. *)
Definition exponent_text (e : Z) : string :=
  String "e" (String (if e <? 0 then "-"%char else "+"%char) (JS.decimal (Z.abs e))).

(** The parsing budget a value needs: one more than the larger of the
    length of an array or object and the budget of its members. *)
Fixpoint fuel_needed (v : JSON.value) : nat :=
  match v with
  | JSON.Arr elements =>
      S (Nat.max (length elements)
           (fold_right (fun v n => Nat.max (fuel_needed v) n) 0%nat elements))
  | JSON.Obj properties =>
      S (Nat.max (length properties)
           (fold_right (fun kv n => Nat.max (fuel_needed (snd kv)) n) 0%nat properties))
  | _ => 1%nat
  end.

(** Every number in the value is one that JSON text can carry. *)
Fixpoint json_safe (v : JSON.value) : bool :=
  match v with
  | JSON.Num x => json_number x
  | JSON.Arr elements => forallb json_safe elements
  | JSON.Obj properties => forallb (fun kv => json_safe (snd kv)) properties
  | _ => true
  end.

(** The text of the elements after the first, each behind its comma. *)
Fixpoint more_elements (parts : list string) : string :=
  match parts with
  | [] => ""
  | part :: parts' => String "," (part +:+ more_elements parts')
  end.

Definition member_text (kv : string * JSON.value) : string :=
  JSON.quote (fst kv) +:+ String ":" (JSON.stringify (snd kv)).

(** A binary64 value that is not NaN and carries the sign [negative]. *)
Definition has_sign (negative : bool) (x : spec_float) : Prop :=
  match x with
  | S754_nan => False
  | S754_zero s | S754_infinity s | S754_finite s _ _ => s = negative
  end.

(** An amount text as the number input has it when no sign was typed:
    it starts with a digit, or with a point and a digit. *)
Definition unsigned_numeral (t : string) : bool :=
  match t with
  | String c rest =>
      JS.is_digit c
      || ((JS.code c =? 46)
          && match rest with
             | String d _ => JS.is_digit d
             | EmptyString => false
             end)
  | EmptyString => false
  end.

(** An event whose texts are a category the select offers and an amount
    without a sign. *)
Definition plain_input (ev : Event) : Prop :=
  match ev with
  | InputChange name value =>
      (name = "category" -> In value categories)
      /\ (name = "amount" -> value = "" \/ unsigned_numeral value = true)
  | _ => True
  end.

Definition plain_form (f : Form.t) : Prop :=
  In (Form.category f) categories
  /\ (Form.amount f = "" \/ unsigned_numeral (Form.amount f) = true).

(** The invariant of the data model: a date, a category of the fixed set,
    an amount that is a number and not below zero. *)
Definition sound (e : Expense) : Prop :=
  date e <> ""
  /\ In (category e) categories
  /\ is_nan (amount e) = false
  /\ (amount e <? 0)%float = false.

(** Sample data. *)
Definition sampleEnv : Env :=
  {| Date_now := 1704412800000;
     today := "2024-01-05";
     localeDate := "1/5/2024";
     confirm := fun _ => true;
     pageWidth := 210%float;
     pageHeight := 297%float;
     finalY := 50%float;
     pdfError := None |}.

Definition lunch : Expense :=
  {| id := "1704412800000"; date := "2024-01-05"; category := "Food";
     amount := 100%float; description := "lunch" |}.

Definition bus : Expense :=
  {| id := "1704412800001"; date := "2024-01-05"; category := "Transport";
     amount := 50%float; description := "" |}.

Definition dinner : Expense :=
  {| id := "1704412800002"; date := "2024-01-06"; category := "Food";
     amount := 75%float; description := "dinner" |}.

Definition sampleForm : Form.t :=
  {| Form.date := "2024-01-05"; Form.category := "Food";
     Form.amount := "250.50"; Form.description := "" |}.

Definition sampleWorld : World :=
  {| state := {| expenses := [dinner; bus; lunch];
                 filterCategory := "Food";
                 formData := sampleForm |};
     localStorage := saveEffect [dinner; bus; lunch] ∅;
     log := [] |}.

(** The page after mounting on an empty store. *)
Definition freshWorld : World :=
  {| state := initialState sampleEnv; localStorage := saveEffect [] ∅; log := [] |}.

(** Two amounts typed and added while the clock reads the same millisecond. *)
Definition sameClockSession : list (Env * Event) :=
  [(sampleEnv, InputChange "amount" "10"); (sampleEnv, ClickAdd);
   (sampleEnv, InputChange "amount" "20"); (sampleEnv, ClickAdd)].

(** The same with the clock one millisecond further at the second click. *)
Definition laterEnv : Env :=
  {| Date_now := 1704412800001;
     today := today sampleEnv;
     localeDate := localeDate sampleEnv;
     confirm := confirm sampleEnv;
     pageWidth := pageWidth sampleEnv;
     pageHeight := pageHeight sampleEnv;
     finalY := finalY sampleEnv;
     pdfError := pdfError sampleEnv |}.

Definition tickingSession : list (Env * Event) :=
  [(sampleEnv, InputChange "amount" "10"); (sampleEnv, ClickAdd);
   (laterEnv, InputChange "amount" "20"); (laterEnv, ClickAdd)].

(** The amount [-5] typed into the form of a fresh page, then Add. *)
Definition negativeSession : list (Env * Event) :=
  [(sampleEnv, InputChange "amount" "-5"); (sampleEnv, ClickAdd)].

(** An entry whose amount text was not a number. *)
Definition unreadable : Expense :=
  {| id := "1704412800003"; date := "2024-01-07"; category := "Other";
     amount := JS.parseFloat "abc"; description := "" |}.

(** The value that comes back for it: the amount is [null]. *)
Definition unreadableReloaded : JSON.value :=
  JSON.Arr [JSON.Obj [("id", JSON.Str "1704412800003");
                      ("date", JSON.Str "2024-01-07");
                      ("category", JSON.Str "Other");
                      ("amount", JSON.Null);
                      ("description", JSON.Str "")]].

(** A form with a category the select does not offer and an amount text
    that is not a numeral. *)
Definition otherForm : Form.t :=
  {| Form.date := "2024-01-05"; Form.category := "Misc";
     Form.amount := "abc"; Form.description := "" |}.

(** ** The page *)

(** One row of the history table: its four cells, and the id that its
    Delete button hands to [handleDeleteExpense]. *)
Record Row : Type := {
  cells : list string;
  deleteId : string
}.

(** What the component returns, as far as the cells decide it: the options
    of the two selects, the buttons of the history header, and either the
    empty notice or the table with the total under it. *)
Record Page : Type := {
  categoryOptions : list string;
  downloadButton : bool;
  deleteCategoryButton : bool;
  deleteAllButton : bool;
  filterOptions : list string;
  emptyState : bool;
  rows : list Row;
  totalSection : option string
}.

Definition render (s : State) : Page :=
  let shown := Nat.ltb 0 (length (filteredExpenses s)) in
  let empty := Nat.eqb (length (filteredExpenses s)) 0 in
  {| categoryOptions := categories;
     downloadButton := shown;
     deleteCategoryButton := shown && negb (String.eqb (filterCategory s) "All");
     deleteAllButton := shown;
     filterOptions := uniqueCategories;
     emptyState := empty;
     rows :=
       if empty then []
       else map (fun expense =>
                   {| cells := [date expense; category expense;
                                JS.toFixed (amount expense) 2;
                                JS.or_else (description expense) "-"];
                      deleteId := id expense |})
                (filteredExpenses s);
     totalSection :=
       if empty then None
       else Some ("Total: INR " +:+ JS.toFixed (totalAmount s) 2) |}.

(** The events a page can raise: any text in the date, amount and
    description inputs, an option of either select, a click on Add, on the
    Delete button of a row, or on a button of the header that is there. *)
Definition offers (p : Page) (ev : Event) : bool :=
  match ev with
  | InputChange name value =>
      String.eqb name "date"
      || (String.eqb name "category" && existsb (String.eqb value) (categoryOptions p))
      || String.eqb name "amount"
      || String.eqb name "description"
  | SelectFilter c => existsb (String.eqb c) (filterOptions p)
  | ClickAdd => true
  | ClickDelete i => existsb (fun row => String.eqb (deleteId row) i) (rows p)
  | ClickDeleteAll => deleteAllButton p
  | ClickDeleteCategory => deleteCategoryButton p
  | ClickDownload => downloadButton p
  end.

(** A session in which every event is one that the page of that moment
    offers. *)
Fixpoint offered (steps : list (Env * Event)) (w : World) : bool :=
  match steps with
  | [] => true
  | (env, ev) :: rest =>
      offers (render (state w)) ev && offered rest (dispatch (handler ev) env w)
  end.



(** The store holds the text of the collection. *)
Definition stored (w : World) : Prop :=
  localStorage w !! "expenses"
  = Some (JSON.stringify (expenses_to_json (expenses (state w)))).

(** The category that the filter select was last set to, [c] if never. *)
Fixpoint last_filter (steps : list (Env * Event)) (c : string) : string :=
  match steps with
  | [] => c
  | (_, SelectFilter c') :: rest => last_filter rest c'
  | _ :: rest => last_filter rest c
  end.

(** A binary64 value that is a number and not below zero. *)
Definition not_below_zero (x : spec_float) : Prop :=
  match x with
  | S754_nan => False
  | S754_zero _ => True
  | S754_infinity s | S754_finite s _ _ => s = false
  end.

(** An effect that is not the alert of a guard against an empty view or a
    missing selection: the only alerts left are those of the form and of a
    failed document. *)
Definition passes_guards (effect : Effect) : Prop :=
  match effect with
  | Alert message =>
      message = "Please fill in all required fields" \/ message = "Failed to generate PDF"
  | _ => True
  end.

(** The selections of a page are among the options of its selects, and so
    are the categories of the entries. *)
Definition within_options (s : State) : Prop :=
  In (filterCategory s) uniqueCategories
  /\ In (Form.category (formData s)) categories
  /\ List.Forall (fun expense => In (category expense) categories) (expenses s).

(** A collection with an entry whose amount is not a number. *)
Definition unreadableState : State :=
  {| expenses := [dinner; unreadable; lunch];
     filterCategory := "All";
     formData := sampleForm |}.

(** The environment of a user who answers no, and one in which jsPDF throws. *)
Definition decliningEnv : Env :=
  {| Date_now := Date_now sampleEnv;
     today := today sampleEnv;
     localeDate := localeDate sampleEnv;
     confirm := fun _ => false;
     pageWidth := pageWidth sampleEnv;
     pageHeight := pageHeight sampleEnv;
     finalY := finalY sampleEnv;
     pdfError := pdfError sampleEnv |}.

Definition failingEnv : Env :=
  {| Date_now := Date_now sampleEnv;
     today := today sampleEnv;
     localeDate := localeDate sampleEnv;
     confirm := confirm sampleEnv;
     pageWidth := pageWidth sampleEnv;
     pageHeight := pageHeight sampleEnv;
     finalY := finalY sampleEnv;
     pdfError := Some "Error" |}.


Definition themedStore : gmap string string :=
  <["theme" := "dark"]> (saveEffect [dinner; bus; lunch] ∅).

(** A visit: the filter set to Transport, an entry typed in and added, the
    Transport entries deleted, the report asked for. *)
Definition visit : list (Env * Event) :=
  [(sampleEnv, SelectFilter "Transport");
   (sampleEnv, InputChange "category" "Health");
   (sampleEnv, InputChange "amount" "12.5");
   (laterEnv, ClickAdd);
   (laterEnv, ClickDeleteCategory);
   (laterEnv, SelectFilter "All");
   (laterEnv, ClickDownload)].

(** * Properties *)

(** ** Adding *)

Lemma falsy_empty (s : string) : JS.falsy s = true <-> s = "".
Proof. destruct s; simpl; split; congruence. Qed.

Lemma falsy_nonempty (s : string) : s <> "" -> JS.falsy s = false.
Proof. destruct s; simpl; congruence. Qed.

(** C1. A click on Add with non-empty date, category and amount text puts
    the new expense (given date and category, parsed amount, description,
    id from the clock) in front of the unchanged previous entries, so the
    size grows by exactly one; the form returns to its defaults; the new
    collection is saved. *)
Theorem handleAddExpense_valid (env : Env) (w : World) :
  Form.date (formData (state w)) <> "" ->
  Form.category (formData (state w)) <> "" ->
  Form.amount (formData (state w)) <> "" ->
  let f := formData (state w) in
  let w' := dispatch handleAddExpense env w in
  let newExpense :=
    {| id := JS.toString (Date_now env);
       date := Form.date f;
       category := Form.category f;
       amount := JS.parseFloat (Form.amount f);
       description := Form.description f |} in
  expenses (state w') = newExpense :: expenses (state w)
  /\ length (expenses (state w')) = S (length (expenses (state w)))
  /\ formData (state w') =
       {| Form.date := today env; Form.category := "Food";
          Form.amount := ""; Form.description := "" |}
  /\ filterCategory (state w') = filterCategory (state w)
  /\ localStorage w' = saveEffect (newExpense :: expenses (state w)) (localStorage w)
  /\ log w' = log w.
Proof.
  intros Hd Hc Ha. unfold dispatch, handleAddExpense. cbv zeta.
  rewrite (falsy_nonempty _ Hd), (falsy_nonempty _ Hc), (falsy_nonempty _ Ha).
  simpl. rewrite app_nil_r. repeat split; reflexivity.
Qed.

Lemma handleAddExpense_valid_witness :
  expenses (state (dispatch handleAddExpense sampleEnv sampleWorld)) =
    {| id := "1704412800000"; date := "2024-01-05"; category := "Food";
       amount := 250.5%float; description := "" |} :: [dinner; bus; lunch].
Proof.
  exact (proj1 (handleAddExpense_valid sampleEnv sampleWorld
                  ltac:(discriminate) ltac:(discriminate) ltac:(discriminate))).
Defined.

(** C2. A click on Add with an empty date, category or amount text only
    raises the alert: the cells, and with them the collection, and the
    store are as before. *)
Theorem handleAddExpense_invalid (env : Env) (w : World) :
  Form.date (formData (state w)) = ""
  \/ Form.category (formData (state w)) = ""
  \/ Form.amount (formData (state w)) = "" ->
  let w' := dispatch handleAddExpense env w in
  state w' = state w
  /\ localStorage w' = localStorage w
  /\ log w' = (log w ++ [Alert "Please fill in all required fields"])%list.
Proof.
  intros H. unfold dispatch, handleAddExpense. cbv zeta.
  assert (E : JS.falsy (Form.date (formData (state w)))
              || JS.falsy (Form.category (formData (state w)))
              || JS.falsy (Form.amount (formData (state w))) = true).
  { destruct H as [H | [H | H]]; rewrite H; simpl;
      rewrite ?orb_true_r; reflexivity. }
  rewrite E. simpl. repeat split; reflexivity.
Qed.

Lemma handleAddExpense_invalid_witness :
  log (dispatch handleAddExpense sampleEnv
         {| state := initialState sampleEnv; localStorage := ∅; log := [] |})
  = [Alert "Please fill in all required fields"].
Proof.
  refine (proj2 (proj2 (handleAddExpense_invalid sampleEnv _ _))).
  right; right; reflexivity.
Defined.

(** The first scenario of the page: one entry of 250.50 with no
    description, shown as a dash. *)
Example first_entry :
  let w := dispatch handleAddExpense sampleEnv
             {| state := setFormData sampleForm (initialState sampleEnv);
                localStorage := ∅; log := [] |} in
  length (expenses (state w)) = 1%nat
  /\ JS.toFixed (totalAmount (state w)) 2 = "250.50"
  /\ map (fun e => JS.or_else (description e) "-") (filteredExpenses (state w)) = ["-"].
Proof. repeat split; reflexivity. Qed.

(** ** Removing *)

Section Filter.
Context {A : Type} (keep : A -> bool).

Lemma filter_keeps_all (l : list A) :
  (forall x, In x l -> keep x = true) -> List.filter keep l = l.
Proof.
  induction l as [| a l IH]; simpl; intros H; [reflexivity |].
  rewrite (H a (or_introl eq_refl)). f_equal. apply IH. intros x Hx. apply H. now right.
Qed.

Lemma filter_keeps_none (l : list A) :
  (forall x, In x l -> keep x = false) -> List.filter keep l = [].
Proof.
  induction l as [| a l IH]; simpl; intros H; [reflexivity |].
  rewrite (H a (or_introl eq_refl)). apply IH. intros x Hx. apply H. now right.
Qed.

Lemma filter_is_sublist (l : list A) : sublist (List.filter keep l) l.
Proof.
  induction l as [| a l IH]; simpl; [constructor |].
  destruct (keep a); now constructor.
Qed.

Lemma filter_complement_length (l : list A) :
  (length (List.filter keep l) + length (List.filter (fun x => negb (keep x)) l))%nat
  = length l.
Proof.
  induction l as [| a l IH]; simpl; [reflexivity |].
  destruct (keep a); simpl; lia.
Qed.
End Filter.

Lemma other_id_iff (i : string) (e : Expense) :
  negb (String.eqb (id e) i) = true <-> id e <> i.
Proof.
  rewrite negb_true_iff. destruct (String.eqb_spec (id e) i); split; congruence.
Qed.

Lemma other_category_iff (c : string) (e : Expense) :
  negb (String.eqb (category e) c) = true <-> category e <> c.
Proof.
  rewrite negb_true_iff. destruct (String.eqb_spec (category e) c); split; congruence.
Qed.

(** C4. After a click on Delete for [i], looking [i] up finds nothing; when
    no entry had that id the collection is unchanged; when a single entry
    has it, exactly that entry is taken out and the others keep their
    order. The other cells are untouched and the result is saved. *)
Theorem handleDeleteExpense_spec (i : string) (env : Env) (w : World) :
  let l := expenses (state w) in
  let w' := dispatch (handleDeleteExpense i) env w in
  let l' := expenses (state w') in
  find (fun e => String.eqb (id e) i) l' = None
  /\ ((forall e, In e l -> id e <> i) -> l' = l)
  /\ (forall before e after,
        l = (before ++ e :: after)%list -> id e = i ->
        (forall x, In x before \/ In x after -> id x <> i) ->
        l' = (before ++ after)%list)
  /\ sublist l' l
  /\ filterCategory (state w') = filterCategory (state w)
  /\ formData (state w') = formData (state w)
  /\ localStorage w' = saveEffect l' (localStorage w)
  /\ log w' = log w.
Proof.
  cbv zeta. unfold dispatch, handleDeleteExpense. simpl. rewrite app_nil_r.
  repeat split.
  - destruct (find _ _) eqn:E; [| reflexivity].
    apply find_some in E as [Hin Heq]. apply filter_In in Hin as [_ Hne].
    rewrite Heq in Hne. discriminate.
  - intros H. apply filter_keeps_all. intros e He. apply other_id_iff. now apply H.
  - intros before e after -> Hid Hother.
    rewrite List.filter_app. simpl.
    replace (negb (String.eqb (id e) i)) with false
      by (symmetry; apply negb_false_iff, String.eqb_eq, Hid).
    rewrite !filter_keeps_all; [reflexivity | |];
      intros x Hx; apply other_id_iff, Hother; auto.
  - apply filter_is_sublist.
Qed.

Lemma handleDeleteExpense_spec_witness :
  expenses (state (dispatch (handleDeleteExpense "1704412800001") sampleEnv sampleWorld))
  = [dinner; lunch].
Proof.
  destruct (handleDeleteExpense_spec "1704412800001" sampleEnv sampleWorld)
    as (_ & _ & H & _).
  apply (H [dinner] bus [lunch]); [reflexivity | reflexivity |].
  intros x [[<- | []] | [<- | []]]; discriminate.
Defined.

(** C10. A click on Delete for [i] removes every entry whose id is [i],
    however many there are: what remains is exactly the entries with
    another id, in their original order. *)
Theorem handleDeleteExpense_removes_every_match (i : string) (env : Env) (w : World) :
  let l := expenses (state w) in
  let l' := expenses (state (dispatch (handleDeleteExpense i) env w)) in
  l' = List.filter (fun e => negb (String.eqb (id e) i)) l
  /\ (forall e, In e l' <-> In e l /\ id e <> i)
  /\ sublist l' l
  /\ (length l' + length (List.filter (fun e => String.eqb (id e) i) l))%nat = length l.
Proof.
  cbv zeta. unfold dispatch, handleDeleteExpense. simpl.
  split; [reflexivity | split; [| split]].
  - intros e. rewrite filter_In, other_id_iff. reflexivity.
  - apply filter_is_sublist.
  - rewrite Nat.add_comm. apply filter_complement_length.
Qed.

(** Two entries that share an id go together. *)
Example handleDeleteExpense_shared_id :
  expenses (next (handleDeleteExpense "1704412800000" sampleEnv
                    (setExpenses [lunch; bus; lunch] (state sampleWorld))))
  = [bus].
Proof. reflexivity. Qed.

(** C3. A click on Delete Category: with the filter on All it only raises
    an alert; with a category that no entry has it only raises an alert;
    otherwise, once confirmed, the collection becomes exactly the entries
    of another category, in their original order, and is saved. *)
Theorem handleDeleteByCategory_spec (env : Env) (w : World) :
  let s := state w in
  let c := filterCategory s in
  let matching := List.filter (fun e => String.eqb (category e) c) (expenses s) in
  let prompt := deleteByCategoryPrompt (length matching) c in
  let w' := dispatch handleDeleteByCategory env w in
  (c = "All" ->
     state w' = s /\ localStorage w' = localStorage w
     /\ log w' = (log w ++ [Alert "Please select a specific category to delete"])%list)
  /\ (c <> "All" -> (forall e, In e (expenses s) -> category e <> c) ->
     state w' = s /\ localStorage w' = localStorage w
     /\ log w' = (log w ++ [Alert ("No expenses found in category: " +:+ c)])%list)
  /\ (c <> "All" -> (exists e, In e (expenses s) /\ category e = c) ->
     confirm env prompt = true ->
     expenses (state w') = List.filter (fun e => negb (String.eqb (category e) c)) (expenses s)
     /\ (forall e, In e (expenses (state w')) <-> In e (expenses s) /\ category e <> c)
     /\ sublist (expenses (state w')) (expenses s)
     /\ filterCategory (state w') = c
     /\ formData (state w') = formData s
     /\ localStorage w' = saveEffect (expenses (state w')) (localStorage w)
     /\ log w' = (log w ++ [Confirm prompt true])%list).
Proof.
  cbv zeta. unfold dispatch, handleDeleteByCategory.
  split; [| split].
  - intros ->. simpl. repeat split; reflexivity.
  - intros Hc Hnone.
    rewrite (proj2 (String.eqb_neq _ _) Hc).
    rewrite filter_keeps_none.
    + simpl. repeat split; reflexivity.
    + intros e He. apply String.eqb_neq. now apply Hnone.
  - intros Hc (e & He & Hcat) Hyes.
    rewrite (proj2 (String.eqb_neq _ _) Hc).
    destruct (List.filter _ _) as [| m ms] eqn:E in |- *.
    + exfalso. assert (Hin : In e []); [| destruct Hin].
      rewrite <- E. apply filter_In. split; [assumption | now apply String.eqb_eq].
    + cbn [length Nat.eqb]. rewrite E in Hyes. cbn [length] in Hyes. rewrite Hyes.
      simpl. split; [reflexivity | split; [| split]].
      * intros x. rewrite filter_In, other_category_iff. reflexivity.
      * apply filter_is_sublist.
      * repeat split; reflexivity.
Qed.

Lemma handleDeleteByCategory_spec_witness :
  expenses (state (dispatch handleDeleteByCategory sampleEnv sampleWorld)) = [bus].
Proof.
  destruct (handleDeleteByCategory_spec sampleEnv sampleWorld) as (_ & _ & H).
  destruct H as (H & _).
  - discriminate.
  - exists lunch. split; [right; right; left; reflexivity | reflexivity].
  - reflexivity.
  - exact H.
Defined.

(** ** Filtering and the total *)

(** C5. With the filter on All the filtered view is the whole collection,
    in order, and the total is the sum of the amounts of every entry; the
    total of an empty filtered view is zero. *)
Theorem totalAmount_spec (s : State) :
  (filterCategory s = "All" ->
     filteredExpenses s = expenses s /\ totalAmount s = sum_amounts (expenses s))
  /\ (filteredExpenses s = [] -> totalAmount s = 0%float).
Proof.
  unfold totalAmount, filteredExpenses, sum_amounts. split.
  - intros ->. simpl. split; reflexivity.
  - intros ->. reflexivity.
Qed.

Lemma totalAmount_spec_witness :
  totalAmount (setFilterCategory "All" (state sampleWorld)) = 225%float
  /\ totalAmount (setFilterCategory "Health" (state sampleWorld)) = 0%float.
Proof.
  split.
  - destruct (totalAmount_spec (setFilterCategory "All" (state sampleWorld))) as [H _].
    destruct (H eq_refl) as [_ ->]. reflexivity.
  - destruct (totalAmount_spec (setFilterCategory "Health" (state sampleWorld))) as [_ H].
    apply H. reflexivity.
Defined.

(** The sum runs through the collection from its first entry on. *)
Lemma sum_amounts_snoc (l : list Expense) (e : Expense) :
  sum_amounts (l ++ [e]) = (sum_amounts l + amount e)%float.
Proof. unfold sum_amounts. rewrite fold_left_app. reflexivity. Qed.

(** The filtered view for a category keeps the matching entries in order. *)
Example filteredExpenses_food :
  filteredExpenses (state sampleWorld) = [dinner; lunch]
  /\ JS.toFixed (totalAmount (state sampleWorld)) 2 = "175.00".
Proof. split; reflexivity. Qed.

(** ** The report *)

(** C9. With an empty filtered view a click on Download only raises an
    alert: no document is made and nothing is saved; the cells and the
    store are as before. *)
Theorem downloadPDF_empty (env : Env) (w : World) :
  filteredExpenses (state w) = [] ->
  let w' := dispatch downloadPDF env w in
  state w' = state w
  /\ localStorage w' = localStorage w
  /\ log w' = (log w ++ [Alert "No expenses to download"])%list
  /\ (forall calls, ~ In (NewPdf calls) (emitted (downloadPDF env (state w)))).
Proof.
  intros H. unfold dispatch, downloadPDF. cbv zeta. rewrite H. simpl.
  repeat split. intros calls [E | []]. discriminate.
Qed.

Lemma downloadPDF_empty_witness :
  log (dispatch downloadPDF sampleEnv
         {| state := setFilterCategory "Health" (state sampleWorld);
            localStorage := localStorage sampleWorld;
            log := [] |})
  = [Alert "No expenses to download"].
Proof.
  refine (proj1 (proj2 (proj2 (downloadPDF_empty sampleEnv _ _)))). reflexivity.
Defined.


(** ** Decimal text *)

Lemma digit_char_is_digit (d : Z) :
  0 <= d <= 9 -> JS.is_digit (JS.digit_char d) = true /\ JS.digit_value (JS.digit_char d) = d.
Proof.
  intros H.
  assert (E : d = 0 \/ d = 1 \/ d = 2 \/ d = 3 \/ d = 4 \/ d = 5 \/ d = 6 \/ d = 7
              \/ d = 8 \/ d = 9) by lia.
  repeat (destruct E as [-> | E]; [split; reflexivity |]). subst. split; reflexivity.
Qed.

Lemma digits_value_app (s1 s2 : string) (acc : Z) :
  digits_value acc (s1 +:+ s2) = digits_value (digits_value acc s1) s2.
Proof. revert acc. induction s1 as [| c s1 IH]; intros acc; simpl; [reflexivity | apply IH]. Qed.

Lemma digits_value_shift (s : string) (acc : Z) :
  digits_value acc s = acc * 10 ^ Z.of_nat (String.length s) + digits_value 0 s.
Proof.
  revert acc. induction s as [| c s IH]; intros acc.
  - simpl. lia.
  - cbn [digits_value String.length]. rewrite IH, (IH (10 * 0 + _)).
    rewrite Nat2Z.inj_succ, Z.pow_succ_r by lia. ring.
Qed.

Lemma all_digits_app (s1 s2 : string) :
  all_digits (s1 +:+ s2) = all_digits s1 && all_digits s2.
Proof.
  induction s1 as [| c s1 IH]; simpl; [reflexivity |]. rewrite IH. apply andb_assoc.
Qed.

Lemma length_append (s1 s2 : string) :
  String.length (s1 +:+ s2) = (String.length s1 + String.length s2)%nat.
Proof. induction s1 as [| c s1 IH]; simpl; [reflexivity | now rewrite IH]. Qed.

Lemma append_assoc (s1 s2 s3 : string) : (s1 +:+ s2) +:+ s3 = s1 +:+ (s2 +:+ s3).
Proof. induction s1 as [| c s1 IH]; simpl; [reflexivity | f_equal; exact IH]. Qed.

Lemma append_empty_r (s : string) : s +:+ "" = s.
Proof. induction s as [| c s IH]; simpl; [reflexivity | now rewrite IH]. Qed.

(** Scanning a run of digits that ends before [rest]. *)
Lemma scan_digits_app (ds rest : string) (acc count : Z) :
  all_digits ds = true -> no_leading_digit rest = true ->
  JS.scan_digits acc count (ds +:+ rest)
  = (digits_value acc ds, count + Z.of_nat (String.length ds), rest).
Proof.
  revert acc count. induction ds as [| c ds IH]; intros acc count Hd Hr.
  - simpl. rewrite Z.add_0_r. destruct rest as [| r rest]; [reflexivity |].
    simpl in *. apply negb_true_iff in Hr. now rewrite Hr.
  - simpl in Hd. apply andb_true_iff in Hd as [Hc Hd].
    cbn [String.append JS.scan_digits String.length]. rewrite Hc, IH by assumption.
    f_equal. f_equal. lia.
Qed.

(** What the digit loop builds in front of [acc]. *)
Lemma decimal_loop_spec (fuel : nat) :
  forall n acc, (0 < fuel)%nat -> 0 <= n < 2 ^ Z.of_nat fuel ->
  exists ds,
    JS.decimal_loop fuel n acc = ds +:+ acc
    /\ all_digits ds = true
    /\ digits_value 0 ds = n
    /\ ds <> ""
    /\ (0 < n -> exists c ds', ds = String c ds' /\ JS.digit_value c <> 0).
Proof.
  induction fuel as [| fuel IH]; intros n acc Hfuel Hn; [lia |].
  - cbn [JS.decimal_loop].
    assert (Hm : 0 <= n mod 10 <= 9) by (pose proof (Z.mod_pos_bound n 10); lia).
    destruct (digit_char_is_digit _ Hm) as [Hd Hv].
    destruct (n <? 10) eqn:E.
    + apply Z.ltb_lt in E. rewrite Z.mod_small in * by lia.
      exists (String (JS.digit_char n) ""). simpl. rewrite Hd, Hv.
      repeat split; try reflexivity; try lia; try discriminate.
      intros Hpos. eexists _, _. split; [reflexivity | lia].
    + apply Z.ltb_ge in E.
      destruct (IH (n / 10) (String (JS.digit_char (n mod 10)) acc)) as (ds & E1 & E2 & E3 & E4 & E5).
      { destruct fuel; [simpl in Hn; lia | lia]. }
      { split; [apply Z.div_pos; lia |].
        apply Z.div_lt_upper_bound; [lia |].
        rewrite Nat2Z.inj_succ, Z.pow_succ_r in Hn by lia. lia. }
      exists (ds +:+ String (JS.digit_char (n mod 10)) "").
      rewrite E1, append_assoc. simpl.
      rewrite all_digits_app, E2, digits_value_app, E3. simpl. rewrite Hd, Hv.
      repeat split; try reflexivity.
      * pose proof (Z.div_mod n 10). lia.
      * destruct ds; [congruence | discriminate].
      * intros _. destruct E5 as (c & ds' & -> & Hc).
        { apply Z.div_str_pos. lia. }
        eexists _, _. split; [reflexivity | assumption].
Qed.

Lemma decimal_spec (n : Z) :
  0 <= n ->
  all_digits (JS.decimal n) = true
  /\ digits_value 0 (JS.decimal n) = n
  /\ JS.decimal n <> ""
  /\ (0 < n -> exists c ds, JS.decimal n = String c ds /\ JS.digit_value c <> 0).
Proof.
  intros Hn. unfold JS.decimal.
  destruct (decimal_loop_spec (S (Z.to_nat (Z.log2 n))) n "") as (ds & E & H).
  - lia.
  - split; [assumption |].
    rewrite Nat2Z.inj_succ, Z2Nat.id by apply Z.log2_nonneg.
    destruct (Z.eq_dec n 0) as [-> | Hne]; [reflexivity |].
    apply Z.log2_spec. lia.
  - rewrite E, append_empty_r. exact H.
Qed.

Lemma decimal_head_digit (n : Z) :
  0 <= n -> exists c ds, JS.decimal n = String c ds /\ JS.is_digit c = true.
Proof.
  intros Hn. destruct (decimal_spec n Hn) as (Hd & _ & Hne & _).
  destruct (JS.decimal n) as [| c ds]; [congruence |].
  simpl in Hd. apply andb_true_iff in Hd as [Hc _]. eauto.
Qed.

Lemma decimal_loop_nonempty (fuel : nat) :
  forall n acc, acc <> "" -> JS.decimal_loop fuel n acc <> "".
Proof.
  induction fuel as [| fuel IH]; intros n acc Hacc; simpl; [assumption |].
  destruct (n <? 10); [discriminate | apply IH; discriminate].
Qed.

Lemma decimal_nonempty (n : Z) : JS.decimal n <> "".
Proof.
  unfold JS.decimal. cbn [JS.decimal_loop].
  destruct (n <? 10); [discriminate | apply decimal_loop_nonempty; discriminate].
Qed.

Lemma format_digits_nonempty (ds : string) (p : Z) :
  ds <> "" -> (1 <= String.length (JS.format_digits ds p))%nat.
Proof.
  intros Hds. unfold JS.format_digits. cbv zeta.
  destruct (_ && _).
  { rewrite length_append. destruct ds; [congruence | simpl; lia]. }
  destruct (_ && _).
  { destruct (JS.split_at _ _) as [a b]. rewrite length_append. simpl. lia. }
  destruct (_ && _); [simpl; lia |].
  destruct ds as [| d [| d' ds]]; [congruence | simpl; lia | simpl; lia].
Qed.

(** The text of an integer determines it. *)
Lemma toString_injective (n m : Z) : JS.toString n = JS.toString m -> n = m.
Proof.
  unfold JS.toString.
  destruct (n <? 0) eqn:En, (m <? 0) eqn:Em; intros E.
  - apply Z.ltb_lt in En, Em. injection E as E.
    assert (- n = - m); [| lia].
    destruct (decimal_spec (- n)) as (_ & <- & _); [lia |].
    destruct (decimal_spec (- m)) as (_ & <- & _); [lia |]. now rewrite E.
  - apply Z.ltb_ge in Em. destruct (decimal_head_digit m Em) as (c & ds & Hm & Hc).
    rewrite Hm in E. injection E as <- _. discriminate.
  - apply Z.ltb_ge in En. destruct (decimal_head_digit n En) as (c & ds & Hn & Hc).
    rewrite Hn in E. injection E as -> _. discriminate.
  - apply Z.ltb_ge in En, Em.
    destruct (decimal_spec n En) as (_ & <- & _).
    destruct (decimal_spec m Em) as (_ & <- & _). now rewrite E.
Qed.

(** ** Identifiers *)

Lemma sublist_In {A : Type} (l1 l2 : list A) (x : A) :
  sublist l1 l2 -> In x l1 -> In x l2.
Proof.
  induction 1 as [| a l1 l2 _ IH | a l1 l2 _ IH]; simpl; intros H.
  - assumption.
  - destruct H as [H | H]; [now left | right; now apply IH].
  - right. now apply IH.
Qed.

Lemma sublist_NoDup_map {A B : Type} (f : A -> B) (l1 l2 : list A) :
  sublist l1 l2 -> List.NoDup (map f l2) -> List.NoDup (map f l1).
Proof.
  induction 1 as [| a l1 l2 Hs IH | a l1 l2 Hs IH]; simpl; intros H.
  - assumption.
  - inversion H as [| ? ? Hnot Hrest]; subst. constructor; [| now apply IH].
    intros Hin. apply Hnot. apply in_map_iff in Hin as (y & Hy & Hin).
    apply in_map_iff. exists y. split; [assumption | now apply (sublist_In l1)].
  - inversion H; subst. now apply IH.
Qed.

Lemma sublist_same {A : Type} (l : list A) : sublist l l.
Proof. induction l; now constructor. Qed.

Lemma sublist_of_nil {A : Type} (l : list A) : sublist [] l.
Proof. induction l; now constructor. Qed.

(** What one event does to the collection: it keeps some of the entries,
    in order and as they are, or (an accepted add) puts one new entry in
    front whose id is the text of the clock reading. *)
Lemma dispatch_expenses (ev : Event) (env : Env) (w : World) :
  let l' := expenses (state (dispatch (handler ev) env w)) in
  let f := formData (state w) in
  sublist l' (expenses (state w))
  \/ (ev = ClickAdd
      /\ JS.falsy (Form.date f) = false
      /\ JS.falsy (Form.category f) = false
      /\ JS.falsy (Form.amount f) = false
      /\ l' = newExpense env f :: expenses (state w)).
Proof.
  cbv zeta. unfold dispatch.
  destruct ev as [name value | c | | i | | |]; cbn [handler].
  - left. apply sublist_same.
  - left. apply sublist_same.
  - unfold handleAddExpense.
    destruct (JS.falsy (Form.date _)) eqn:Ed; [left; apply sublist_same |].
    destruct (JS.falsy (Form.category _)) eqn:Ec; [left; apply sublist_same |].
    destruct (JS.falsy (Form.amount _)) eqn:Ea; [left; apply sublist_same |].
    right. repeat split; reflexivity.
  - left. apply filter_is_sublist.
  - left. unfold handleDeleteAll. destruct (confirm env _); simpl.
    + apply sublist_of_nil.
    + apply sublist_same.
  - left. unfold handleDeleteByCategory.
    destruct (String.eqb _ _); [apply sublist_same |].
    destruct (Nat.eqb _ _); [apply sublist_same |].
    destruct (confirm env _); simpl; [apply filter_is_sublist | apply sublist_same].
  - left. unfold downloadPDF.
    destruct (Nat.eqb _ _); [apply sublist_same |].
    destruct (pdfError env); apply sublist_same.
Qed.

(** C7, as the code has it: two accepted adds at the same clock reading
    leave two entries with the same id in the collection. *)
Lemma ids_shared_at_same_clock :
  map id (expenses (state (run sameClockSession freshWorld)))
    = ["1704412800000"; "1704412800000"]
  /\ map amount (expenses (state (run sameClockSession freshWorld)))
    = [20%float; 10%float].
Proof. split; reflexivity. Qed.

(** C7, amended. Along a session whose clicks on Add happen at pairwise
    different clock readings, none of which is already the id of an entry,
    a collection with pairwise different ids keeps pairwise different ids;
    and every entry at the end is an entry from the start, unchanged, or was
    added in the session with the text of a click's clock reading as id. *)
Theorem ids_unique_with_fresh_clock (steps : list (Env * Event)) (w : World) :
  List.NoDup (map id (expenses (state w))) ->
  List.NoDup (add_times steps) ->
  (forall t, In t (add_times steps) -> ~ In (JS.toString t) (map id (expenses (state w)))) ->
  List.NoDup (map id (expenses (state (run steps w))))
  /\ (forall e, In e (expenses (state (run steps w))) ->
        In e (expenses (state w))
        \/ exists t, In t (add_times steps) /\ id e = JS.toString t).
Proof.
  revert w. induction steps as [| [env ev] rest IH]; intros w Hw Ht Hfresh.
  - simpl. split; [assumption | auto].
  - cbn [run].
    destruct (dispatch_expenses ev env w) as [Hsub | (-> & _ & _ & _ & Hl)].
    2: set (e := newExpense env (formData (state w))) in *.
    2: assert (He : id e = JS.toString (Date_now env)) by reflexivity.
    + assert (Hrest : List.NoDup (add_times rest) /\
                      forall t, In t (add_times rest) -> In t (add_times ((env, ev) :: rest))).
      { destruct ev; cbn [add_times] in *; try (split; [assumption | auto]).
        inversion Ht; subst. split; [assumption | intros; now right]. }
      destruct Hrest as [Hnd Hincl].
      destruct (IH (dispatch (handler ev) env w)) as [IH1 IH2].
      * now apply (sublist_NoDup_map id _ _ Hsub).
      * assumption.
      * intros t Hin Hid. apply (Hfresh t (Hincl t Hin)).
        apply in_map_iff in Hid as (x & Hx & Hxin).
        apply in_map_iff. exists x. split; [assumption | now apply (sublist_In _ _ _ Hsub)].
      * split; [assumption |].
        intros x Hx. destruct (IH2 x Hx) as [Hin | (t & Hin & Hid)].
        -- left. now apply (sublist_In _ _ _ Hsub).
        -- right. exists t. split; [now apply Hincl | assumption].
    + cbn [add_times] in Ht, Hfresh. inversion Ht as [| ? ? Hnotin Hnd]; subst.
      destruct (IH (dispatch (handler ClickAdd) env w)) as [IH1 IH2].
      * rewrite Hl. cbn [map]. constructor; [| assumption].
        rewrite He. apply Hfresh. now left.
      * assumption.
      * intros t Hin. rewrite Hl. cbn [map]. intros [Hid | Hid].
        -- rewrite He in Hid. apply toString_injective in Hid. subst. contradiction.
        -- apply (Hfresh t); [now right | assumption].
      * split; [assumption |].
        intros x Hx. destruct (IH2 x Hx) as [Hin | (t & Hin & Hid)].
        -- rewrite Hl in Hin. destruct Hin as [<- | Hin]; [| now left].
           right. exists (Date_now env). split; [now left | assumption].
        -- right. exists t. split; [now right | assumption].
Qed.

Lemma ids_unique_with_fresh_clock_witness :
  List.NoDup (map id (expenses (state (run tickingSession freshWorld)))).
Proof.
  refine (proj1 (ids_unique_with_fresh_clock tickingSession freshWorld _ _ _)).
  - constructor.
  - cbn. repeat constructor; simpl; intuition discriminate.
  - simpl. intros t _ [].
Defined.

(** ** Number text read back *)

Ltac ascii_cases c :=
  destruct c as [[] [] [] [] [] [] [] []].

Lemma ends_number_no_digit (rest : string) :
  ends_number rest = true -> no_leading_digit rest = true.
Proof.
  destruct rest as [| c rest]; [reflexivity |]. simpl.
  destruct (JS.is_digit c); simpl; congruence.
Qed.

Lemma zeros_spec (n : nat) (acc : Z) :
  all_digits (JS.zeros n) = true
  /\ digits_value acc (JS.zeros n) = acc * 10 ^ Z.of_nat n
  /\ String.length (JS.zeros n) = n.
Proof.
  revert acc. induction n as [| n IH]; intros acc.
  - simpl. repeat split. lia.
  - cbn [JS.zeros all_digits digits_value String.length].
    destruct (IH (10 * acc + JS.digit_value "0")) as (H1 & H2 & H3).
    rewrite H1, H2, H3. repeat split.
    rewrite Nat2Z.inj_succ, Z.pow_succ_r by lia.
    change (JS.digit_value "0") with 0. ring.
Qed.

Lemma split_at_spec (n : nat) (s : string) :
  (n <= String.length s)%nat ->
  s = fst (JS.split_at n s) +:+ snd (JS.split_at n s)
  /\ String.length (fst (JS.split_at n s)) = n.
Proof.
  revert s. induction n as [| n IH]; intros s Hn.
  - destruct s; simpl; split; reflexivity.
  - destruct s as [| c s]; [simpl in Hn; lia |].
    cbn [JS.split_at]. destruct (JS.split_at n s) as [a b] eqn:E.
    destruct (IH s) as [H1 H2]; [simpl in Hn; lia |]. rewrite E in H1, H2.
    simpl in *. split; congruence.
Qed.

Lemma parse_exponent_absent (rest : string) :
  ends_number rest = true -> JSON.parse_exponent rest = Some (0, rest).
Proof.
  destruct rest as [| c rest]; [reflexivity |]. intros H.
  unfold JSON.parse_exponent. simpl in H.
  destruct (JS.code c =? 101), (JS.code c =? 69); simpl in *;
    rewrite ?orb_true_r in H; try discriminate; reflexivity.
Qed.

Lemma parse_fraction_absent (negative : bool) (i : Z) (rest : string) :
  ends_number rest = true ->
  JSON.parse_fraction negative i rest
  = Some (JSON.Num (JS.round_decimal negative i 0), rest).
Proof.
  intros H. destruct rest as [| c rest]; [reflexivity |].
  ascii_cases c; try discriminate H; reflexivity.
Qed.

Lemma parse_exponent_text (e : Z) (rest : string) :
  ends_number rest = true ->
  JSON.parse_exponent (exponent_text e +:+ rest) = Some (e, rest).
Proof.
  intros H. unfold exponent_text, JSON.parse_exponent.
  destruct (decimal_spec (Z.abs e)) as (Hd & Hv & Hne & _); [lia |].
  assert (Hlen : String.length (JS.decimal (Z.abs e)) <> 0%nat)
    by (destruct (JS.decimal (Z.abs e)); simpl; congruence).
  destruct (e <? 0) eqn:E; simpl;
    rewrite scan_digits_app by (try assumption; now apply ends_number_no_digit);
    rewrite Hv;
    (destruct (0 + Z.of_nat _ =? 0) eqn:E0; [apply Z.eqb_eq in E0; lia |]).
  - apply Z.ltb_lt in E. do 2 f_equal. lia.
  - apply Z.ltb_ge in E. do 2 f_equal. lia.
Qed.

(** A fraction [.b] with or without the exponent part after it. *)
Lemma parse_fraction_point (negative : bool) (i : Z) (b tail rest : string) (e : Z) :
  all_digits b = true -> b <> "" ->
  no_leading_digit (tail +:+ rest) = true ->
  JSON.parse_exponent (tail +:+ rest) = Some (e, rest) ->
  JSON.parse_fraction negative i (String "." (b +:+ tail +:+ rest))
  = Some (JSON.Num (JS.round_decimal negative (digits_value i b)
                      (e - Z.of_nat (String.length b))), rest).
Proof.
  intros Hb Hne Htail He. unfold JSON.parse_fraction.
  rewrite scan_digits_app by assumption.
  destruct (0 + Z.of_nat (String.length b) =? 0) eqn:E0.
  - apply Z.eqb_eq in E0. destruct b; [congruence | simpl in E0; lia].
  - rewrite He. reflexivity.
Qed.

Lemma exponent_text_no_digit (e : Z) (rest : string) :
  no_leading_digit (exponent_text e +:+ rest) = true.
Proof. reflexivity. Qed.

(** A fraction [.b] that ends the number. *)
Lemma parse_fraction_only (negative : bool) (i : Z) (b rest : string) :
  all_digits b = true -> b <> "" -> ends_number rest = true ->
  JSON.parse_fraction negative i (String "." (b +:+ rest))
  = Some (JSON.Num (JS.round_decimal negative (digits_value i b)
                      (0 - Z.of_nat (String.length b))), rest).
Proof.
  intros Hb Hne Hrest.
  apply (parse_fraction_point negative i b "" rest 0); try assumption.
  - now apply ends_number_no_digit.
  - now apply parse_exponent_absent.
Qed.

(** An exponent part right after the integer part. *)
Lemma parse_fraction_exponent (negative : bool) (i e : Z) (rest : string) :
  ends_number rest = true ->
  JSON.parse_fraction negative i (exponent_text e +:+ rest)
  = Some (JSON.Num (JS.round_decimal negative i e), rest).
Proof.
  intros Hrest.
  assert (E : JSON.parse_fraction negative i (exponent_text e +:+ rest)
              = match JSON.parse_exponent (exponent_text e +:+ rest) with
                | Some (e', r) => Some (JSON.Num (JS.round_decimal negative i e'), r)
                | None => None
                end) by reflexivity.
  rewrite E, parse_exponent_text by assumption. reflexivity.
Qed.

(** The integer part: digits that start with a digit other than [0]. *)
Lemma parse_number_integer (negative : bool) (c : ascii) (ds tail : string) :
  JS.is_digit c = true -> JS.digit_value c <> 0 ->
  all_digits ds = true -> no_leading_digit tail = true ->
  JSON.parse_number negative (String c (ds +:+ tail))
  = JSON.parse_fraction negative (digits_value 0 (String c ds)) tail.
Proof.
  intros Hc Hnz Hds Htail.
  assert (E : JS.scan_digits 0 0 (String c ds +:+ tail)
              = (digits_value 0 (String c ds), 0 + Z.of_nat (String.length (String c ds)), tail)).
  { apply scan_digits_app; [simpl; now rewrite Hc | assumption]. }
  revert E. simpl String.append.
  ascii_cases c; try discriminate Hc; try (exfalso; apply Hnz; reflexivity);
    intros E; unfold JSON.parse_number; cbv beta iota; rewrite E; reflexivity.
Qed.

Lemma round_decimal_scaled (negative : bool) (s p : Z) :
  0 <= p -> JS.round_decimal negative (s * 10 ^ p) 0 = JS.round_decimal negative s p.
Proof.
  intros Hp. unfold JS.round_decimal. simpl (0 <=? 0).
  apply Z.leb_le in Hp. rewrite Hp. cbv iota. rewrite Z.pow_0_r, Z.mul_1_r. reflexivity.
Qed.

(** The digits and exponent that [Number::toString] lays out are read back
    as the same decimal, whichever of its four layouts is used. *)
Lemma parse_number_format (negative : bool) (s p : Z) (rest : string) :
  0 < s -> ends_number rest = true ->
  JSON.parse_number negative (JS.format_digits (JS.decimal s) p +:+ rest)
  = Some (JSON.Num (JS.round_decimal negative s p), rest).
Proof.
  intros Hs Hrest.
  destruct (decimal_spec s) as (Hd & Hv & _ & Hhead); [lia |].
  destruct (Hhead Hs) as (c & ds & Eds & Hnz). clear Hhead.
  pose proof (ends_number_no_digit _ Hrest) as Hnd.
  rewrite Eds in *. cbn [all_digits] in Hd. apply andb_true_iff in Hd as [Hc Hds].
  unfold JS.format_digits. cbv zeta.
  set (k := Z.of_nat (String.length (String c ds))).
  assert (Hk : k = 1 + Z.of_nat (String.length ds)) by (unfold k; cbn [String.length]; lia).
  destruct ((k <=? p + k) && (p + k <=? 21)) eqn:C1.
  { (* digits, then zeros *)
    apply andb_true_iff in C1 as [C1 _]. apply Z.leb_le in C1.
    destruct (zeros_spec (Z.to_nat (p + k - k)) (digits_value 0 (String c ds))) as (Z1 & Z2 & Z3).
    cbn [String.append].
    rewrite parse_number_integer; try assumption.
    - rewrite parse_fraction_absent by assumption.
      change (String c (ds +:+ JS.zeros (Z.to_nat (p + k - k))))
        with (String c ds +:+ JS.zeros (Z.to_nat (p + k - k))).
      rewrite digits_value_app, Z2, Hv, Z2Nat.id by lia.
      replace (p + k - k) with p by lia.
      rewrite round_decimal_scaled by lia. reflexivity.
    - rewrite all_digits_app, Hds, Z1. reflexivity. }
  destruct ((0 <? p + k) && (p + k <=? 21)) eqn:C2.
  { (* a point inside the digits *)
    apply andb_true_iff in C2 as [C2 C2']. apply Z.ltb_lt in C2. apply Z.leb_le in C2'.
    assert (Hlt : p + k < k).
    { destruct (Z.leb_spec k (p + k)); [| assumption]. simpl in C1.
      apply Z.leb_gt in C1. lia. }
    destruct (split_at_spec (Z.to_nat (p + k)) (String c ds)) as [E1 E2].
    { unfold k in *. lia. }
    destruct (JS.split_at (Z.to_nat (p + k)) (String c ds)) as [a b] eqn:Es.
    cbn [fst snd] in E1, E2.
    assert (Hab : all_digits a = true /\ all_digits b = true).
    { apply andb_true_iff. rewrite <- all_digits_app, <- E1. simpl. now rewrite Hc. }
    destruct Hab as [Ha Hb].
    assert (Hlen : Z.of_nat (String.length b) = - p).
    { assert (E3 := f_equal String.length E1). rewrite length_append, E2 in E3.
      fold k in E3. unfold k in *. lia. }
    destruct a as [| c' a']; [simpl in E2; lia |].
    cbn [String.append] in E1. injection E1 as <- E1.
    cbn [all_digits] in Ha. apply andb_true_iff in Ha as [_ Ha].
    cbn [String.append]. rewrite append_assoc. cbn [String.append].
    rewrite parse_number_integer by (try assumption; reflexivity).
    rewrite parse_fraction_only; try assumption.
    - rewrite <- digits_value_app. cbn [String.append]. rewrite <- E1, Hv, Hlen.
      replace (0 - - p) with p by lia. reflexivity.
    - destruct b; [simpl in Hlen; lia | discriminate]. }
  destruct ((-6 <? p + k) && (p + k <=? 0)) eqn:C3.
  { (* zeros after the point, then the digits *)
    apply andb_true_iff in C3 as [_ C3]. apply Z.leb_le in C3.
    destruct (zeros_spec (Z.to_nat (- (p + k))) 0) as (Z1 & Z2 & Z3).
    cbn [String.append]. unfold JSON.parse_number.
    rewrite parse_fraction_only.
    - rewrite digits_value_app, Z2, Z.mul_0_l, Hv, length_append, Z3.
      do 4 f_equal. cbn [String.length]. lia.
    - rewrite all_digits_app, Z1. simpl. now rewrite Hc.
    - destruct (JS.zeros _); discriminate.
    - assumption. }
  (* exponent notation *)
  fold (exponent_text (p + k - 1)).
  destruct ds as [| d ds].
  - cbn [String.append].
    change (String c (exponent_text (p + k - 1) +:+ rest))
      with (String c ("" +:+ exponent_text (p + k - 1) +:+ rest)).
    rewrite (parse_number_integer negative c "" _ Hc Hnz eq_refl (exponent_text_no_digit _ _)).
    rewrite parse_fraction_exponent, Hv by assumption.
    do 4 f_equal. simpl in Hk. lia.
  - cbn [String.append]. rewrite append_assoc.
    change (String c (String "." (String d (ds +:+ exponent_text (p + k - 1) +:+ rest))))
      with (String c ("" +:+ String "." (String d ds +:+ exponent_text (p + k - 1) +:+ rest))).
    rewrite (parse_number_integer negative c ""
               (String "." (String d ds +:+ exponent_text (p + k - 1) +:+ rest))
               Hc Hnz eq_refl eq_refl).
    rewrite (parse_fraction_point negative _ (String d ds) (exponent_text (p + k - 1)) rest
               (p + k - 1)).
    + change (digits_value (digits_value 0 (String c "")) (String d ds))
        with (digits_value 0 (String c (String d ds))).
      rewrite Hv. do 4 f_equal. cbn [String.length] in *. lia.
    + assumption.
    + discriminate.
    + reflexivity.
    + now apply parse_exponent_text.
Qed.

(** ** Rounding to binary64 *)

Lemma binary_round_sign (m : positive) (e : Z) :
  SF2Prim (binary_round prec emax true m e)
  = (- SF2Prim (binary_round prec emax false m e))%float.
Proof.
  unfold binary_round. destruct (shl_align _ _ _) as [mz ez].
  unfold binary_round_aux. destruct (shr_fexp _ _ _ _ _) as [mrs e'].
  destruct (shr_fexp _ _ _ _ _) as [mrs' e''].
  destruct (shr_m mrs'); [reflexivity | | reflexivity].
  destruct (Z.leb _ _); reflexivity.
Qed.

Lemma round_ratio_negative (n d : Z) :
  0 <= n -> 0 < d ->
  JS.round_ratio true n d = (- JS.round_ratio false n d)%float.
Proof.
  intros Hn Hd. unfold JS.round_ratio.
  destruct (n =? 0); [reflexivity |]. cbv zeta.
  set (s := Z.max 0 (64 + Z.log2 d - Z.log2 n)).
  set (m := 2 * (n * 2 ^ s / d) + (if n * 2 ^ s mod d =? 0 then 0 else 1)).
  assert (Hm : 0 <= m).
  { unfold m. assert (0 <= n * 2 ^ s / d).
    { apply Z.div_pos; [| assumption]. apply Z.mul_nonneg_nonneg; [assumption |].
      apply Z.pow_nonneg. lia. }
    destruct (_ =? 0); lia. }
  destruct m as [| pm | pm]; [reflexivity | | lia].
  apply binary_round_sign.
Qed.

Lemma round_decimal_negative (s p : Z) :
  0 <= s -> JS.round_decimal true s p = (- JS.round_decimal false s p)%float.
Proof.
  intros Hs. unfold JS.round_decimal. destruct (0 <=? p) eqn:E.
  - apply round_ratio_negative; [| lia].
    apply Z.mul_nonneg_nonneg; [assumption | apply Z.pow_nonneg; lia].
  - apply Z.leb_gt in E.
    apply round_ratio_negative; [assumption |]. apply Z.pow_pos_nonneg; lia.
Qed.

Lemma compare_cont_same (m : positive) : Pos.compare_cont Eq m m = Eq.
Proof. apply Pos.compare_cont_refl. Qed.

(** What the class of a number that JSON text can carry says about it. *)
Lemma json_number_cases (x : float) :
  json_number x = true ->
  Prim2SF x = S754_zero false \/ exists s m e, Prim2SF x = S754_finite s m e.
Proof.
  unfold json_number. rewrite FloatAxioms.classify_spec. unfold SF64classify, SFclassify.
  destruct (Prim2SF x) as [[] | [] | | s m e]; try discriminate; eauto.
Qed.

Lemma finite_is_finite (x : float) (s : bool) (m : positive) (e : Z) :
  Prim2SF x = S754_finite s m e ->
  is_nan x = false /\ is_zero x = false /\ is_infinity x = false
  /\ (x <? 0)%float = s
  /\ Prim2SF (abs x) = S754_finite false m e
  /\ x = (if s then - abs x else abs x)%float.
Proof.
  intros E.
  assert (Eabs : Prim2SF (abs x) = S754_finite false m e) by (rewrite FloatAxioms.abs_spec, E; reflexivity).
  unfold is_nan, is_zero, is_infinity. rewrite !FloatAxioms.eqb_spec, FloatAxioms.ltb_spec, Eabs, E.
  change (Prim2SF zero) with (S754_zero false).
  change (Prim2SF infinity) with (S754_infinity false).
  change (Prim2SF 0%float) with (S754_zero false).
  unfold SFeqb, SFltb, SFcompare. rewrite Z.compare_refl, compare_cont_same.
  repeat split; try (destruct s; reflexivity).
  apply Prim2SF_inj. destruct s.
  - rewrite FloatAxioms.opp_spec, Eabs, E. reflexivity.
  - rewrite Eabs, E. reflexivity.
Qed.

(** What the search for the shortest digits returns reads back. *)
Lemma digits_at_sound (x : float) (num den n k : Z) (r : Z * Z) :
  JS.digits_at x num den n k = Some r -> JS.reads_back x (fst r) (snd r) = true.
Proof.
  unfold JS.digits_at. cbv zeta.
  set (p := n - k).
  set (a := if 0 <=? p then num else num * 10 ^ (- p)).
  set (b := if 0 <=? p then den * 10 ^ p else den).
  set (hi := if a / b + 1 =? 10 ^ k then (1, p + k) else (a / b + 1, p)).
  destruct (JS.reads_back x (a / b) p) eqn:Elo,
           (JS.reads_back x (fst hi) (snd hi)) eqn:Ehi; simpl.
  - destruct (match 2 * (a mod b) ?= b with Gt => true | Lt => false | Eq => Z.odd (a / b) end);
      intros [= <-]; assumption.
  - intros [= <-]. assumption.
  - intros [= <-]. assumption.
  - discriminate.
Qed.

Lemma first_digits_sound (x : float) (num den n : Z) (ks : list Z) (r : Z * Z) :
  JS.first_digits x num den n ks = Some r -> JS.reads_back x (fst r) (snd r) = true.
Proof.
  induction ks as [| k ks IH]; simpl; [discriminate |].
  destruct (JS.digits_at x num den n k) eqn:E.
  - intros [= <-]. now apply digits_at_sound in E.
  - exact IH.
Qed.

(** Rounding a value that is a binary64 number gives that number. *)

Lemma digits2_size (m : positive) : digits2_pos m = Pos.size m.
Proof. induction m; simpl; congruence. Qed.

Lemma digits2_log2 (m : positive) : Zpos (digits2_pos m) = Z.log2 (Zpos m) + 1.
Proof. rewrite digits2_size. destruct m; simpl; lia. Qed.

Lemma shifted_pos (m : positive) (k : nat) :
  Zpos (Nat.iter k xO m) = Zpos m * 2 ^ Z.of_nat k.
Proof.
  induction k as [| k IH]; [simpl; lia |].
  rewrite Nat2Z.inj_succ, Z.pow_succ_r, Nat.iter_succ, Pos2Z.inj_xO, IH by lia. ring.
Qed.

Lemma digits2_shifted (m : positive) (k : nat) :
  Zpos (digits2_pos (Nat.iter k xO m)) = Zpos (digits2_pos m) + Z.of_nat k.
Proof.
  induction k as [| k IH]; [simpl; lia |].
  rewrite Nat.iter_succ. cbn [digits2_pos].
  rewrite Pos2Z.inj_succ, IH. lia.
Qed.

Lemma iter_pos_nat {A : Type} (f : A -> A) (p : positive) (x : A) :
  SpecFloat.iter_pos f p x = Nat.iter (Pos.to_nat p) f x.
Proof.
  revert x. induction p as [p IH | p IH |]; intros x; cbn [SpecFloat.iter_pos].
  - rewrite !IH, Pos2Nat.inj_xI, <- Nat.iter_add, <- Nat.iter_succ_r. f_equal. lia.
  - rewrite !IH, Pos2Nat.inj_xO, <- Nat.iter_add. f_equal. lia.
  - reflexivity.
Qed.

Lemma shr_shifted (m : positive) (k : nat) :
  Nat.iter k shr_1 {| shr_m := Zpos (Nat.iter k xO m); shr_r := false; shr_s := false |}
  = {| shr_m := Zpos m; shr_r := false; shr_s := false |}.
Proof.
  induction k as [| k IH]; [reflexivity |].
  rewrite Nat.iter_succ_r. exact IH.
Qed.

Lemma bounded_spec (m : positive) (e : Z) :
  bounded prec emax m e = true ->
  fexp prec emax (Zpos (digits2_pos m) + e) = e
  /\ (e <=? emax - prec) = true
  /\ Z.log2 (Zpos m) <= 52.
Proof.
  unfold bounded, canonical_mantissa. intros H.
  apply andb_true_iff in H as [H1 H2]. apply Z.eqb_eq in H1.
  repeat split; try assumption.
  pose proof (digits2_log2 m). unfold fexp, prec in H1. lia.
Qed.

Lemma binary_normalize_exact (m : positive) (e : Z) (k : nat) :
  bounded prec emax m e = true ->
  binary_normalize prec emax (Zpos (Nat.iter k xO m)) (e - Z.of_nat k) false
  = S754_finite false m e.
Proof.
  intros Hb. destruct (bounded_spec m e Hb) as (Hf & He & _).
  unfold binary_normalize, binary_round.
  assert (Hd : Zpos (digits2_pos (Nat.iter k xO m)) + (e - Z.of_nat k)
               = Zpos (digits2_pos m) + e) by (rewrite digits2_shifted; lia).
  rewrite Hd, Hf.
  assert (Ealign : shl_align (Nat.iter k xO m) (e - Z.of_nat k) e
                   = (Nat.iter k xO m, e - Z.of_nat k)).
  { unfold shl_align. replace (e - (e - Z.of_nat k)) with (Z.of_nat k) by lia.
    destruct k; reflexivity. }
  rewrite Ealign. unfold binary_round_aux.
  assert (Eshr : shr_fexp prec emax (Zpos (Nat.iter k xO m)) (e - Z.of_nat k) loc_Exact
                 = ({| shr_m := Zpos m; shr_r := false; shr_s := false |}, e)).
  { unfold shr_fexp. cbn [Zdigits2 shr_record_of_loc]. rewrite Hd, Hf.
    replace (e - (e - Z.of_nat k)) with (Z.of_nat k) by lia.
    destruct k as [| k].
    - simpl. f_equal. lia.
    - unfold shr. change (Z.of_nat (S k)) with (Zpos (Pos.of_succ_nat k)). cbv iota.
      rewrite iter_pos_nat, SuccNat2Pos.id_succ, shr_shifted.
      f_equal. lia. }
  rewrite Eshr. cbn [shr_m loc_of_shr_record round_nearest_even].
  assert (Eshr' : shr_fexp prec emax (Zpos m) e loc_Exact
                  = ({| shr_m := Zpos m; shr_r := false; shr_s := false |}, e)).
  { unfold shr_fexp. cbn [Zdigits2 shr_record_of_loc]. rewrite Hf, Z.sub_diag. reflexivity. }
  rewrite Eshr'. cbn [shr_m]. rewrite He. reflexivity.
Qed.

Lemma round_ratio_exact (m : positive) (e n d : Z) :
  bounded prec emax m e = true -> 0 < d -> 0 < n ->
  0 <= e + Z.max 0 (64 + Z.log2 d - Z.log2 n) ->
  n * 2 ^ Z.max 0 (64 + Z.log2 d - Z.log2 n)
  = Zpos m * 2 ^ (e + Z.max 0 (64 + Z.log2 d - Z.log2 n)) * d ->
  JS.round_ratio false n d = SF2Prim (S754_finite false m e).
Proof.
  intros Hb Hd Hn Hes Hnd. unfold JS.round_ratio.
  destruct (Z.eqb_spec n 0) as [-> | _]; [lia |]. cbv zeta.
  set (s := Z.max 0 (64 + Z.log2 d - Z.log2 n)) in *.
  rewrite Hnd, Z.div_mul, Z.mod_mul by lia. simpl (0 =? 0). cbv iota.
  f_equal.
  replace (2 * (Zpos m * 2 ^ (e + s)) + 0)
    with (Zpos (Nat.iter (Z.to_nat (e + s + 1)) xO m)).
  - replace (- s - 1) with (e - Z.of_nat (Z.to_nat (e + s + 1))) by lia.
    now apply binary_normalize_exact.
  - rewrite shifted_pos, Z2Nat.id by lia.
    rewrite (Z.add_comm (e + s) 1), Z.pow_add_r by lia. change (2 ^ 1) with 2. ring.
Qed.

(** The exact decimal expansion of a positive binary64 number reads back
    as that number. *)
Lemma exact_decimal_reads_back (y : float) (m : positive) (e : Z) :
  Prim2SF y = S754_finite false m e ->
  0 < fst (JS.exact_decimal y)
  /\ JS.round_decimal false (fst (JS.exact_decimal y)) (snd (JS.exact_decimal y)) = y.
Proof.
  intros E. pose proof (Prim2SF_valid y) as Hb. rewrite E in Hb. cbn [valid_binary] in Hb.
  destruct (bounded_spec m e Hb) as (_ & _ & Hlog).
  assert (Ey : y = SF2Prim (S754_finite false m e))
    by (rewrite <- E; symmetry; apply SF2Prim_Prim2SF).
  unfold JS.exact_decimal. rewrite E. clear E. subst y.
  destruct (Z.leb_spec 0 e) as [He | He]; cbn [fst snd]; unfold JS.round_decimal.
  - assert (Hpow : 0 < 2 ^ e) by (apply Z.pow_pos_nonneg; lia).
    split; [lia |]. simpl (0 <=? 0). cbv iota. rewrite Z.pow_0_r, Z.mul_1_r.
    apply round_ratio_exact; try assumption; try lia.
    rewrite Z.pow_add_r by lia. ring.
  - assert (Hpow5 : 0 < 5 ^ (- e)) by (apply Z.pow_pos_nonneg; lia).
    assert (Hpow2 : 0 < 2 ^ (- e)) by (apply Z.pow_pos_nonneg; lia).
    split; [lia |].
    destruct (Z.leb_spec 0 e) as [He' | _]; [lia |].
    assert (H10 : 10 ^ (- e) = 5 ^ (- e) * 2 ^ (- e))
      by (rewrite <- Z.pow_mul_l; reflexivity).
    assert (Hs : - e <= Z.max 0 (64 + Z.log2 (10 ^ (- e)) - Z.log2 (Zpos m * 5 ^ (- e)))).
    { rewrite H10, Z.log2_mul_pow2 by lia.
      pose proof (Z.log2_mul_above (Zpos m) (5 ^ (- e))). lia. }
    apply round_ratio_exact; try assumption; try lia.
    set (s := Z.max 0 _) in *.
    replace s with ((e + s) + - e) at 1 by lia.
    rewrite Z.pow_add_r, H10 by lia. ring.
Qed.

Lemma shortest_reads_back (y : float) (m : positive) (e : Z) :
  Prim2SF y = S754_finite false m e ->
  0 < fst (JS.shortest y)
  /\ JS.round_decimal false (fst (JS.shortest y)) (snd (JS.shortest y)) = y.
Proof.
  intros E. unfold JS.shortest. destruct (JS.exact_ratio y) as [num den].
  destruct (JS.first_digits _ _ _ _ _) as [r |] eqn:Er.
  - apply first_digits_sound in Er. unfold JS.reads_back in Er.
    apply andb_true_iff in Er as [H1 H2].
    apply Z.ltb_lt in H1. apply Leibniz.eqb_spec in H2. split; assumption.
  - now apply (exact_decimal_reads_back y m e).
Qed.

(** ** JSON text read back *)

Lemma parse_value_of_number (f : nat) (t : string) (r : JSON.value * string) :
  JSON.parse_number false t = Some r -> JSON.parse_value (S f) t = Some r.
Proof.
  destruct t as [| c t]; [discriminate |].
  ascii_cases c; intros H; first [exact H | simpl in H; discriminate H].
Qed.

Lemma parse_value_minus (f : nat) (t : string) :
  JSON.parse_value (S f) (String "-" t) = JSON.parse_number true t.
Proof. reflexivity. Qed.

(** A number that JSON text can carry is read back from its text. *)
Lemma parse_value_number (f : nat) (x : float) (rest : string) :
  json_number x = true -> ends_number rest = true ->
  JSON.parse_value (S f) (JSON.stringify (JSON.Num x) +:+ rest) = Some (JSON.Num x, rest).
Proof.
  intros Hx Hrest. destruct (json_number_cases x Hx) as [E | (s & m & e & E)].
  - assert (x = zero) by (apply Prim2SF_inj; rewrite E; reflexivity). subst x.
    apply parse_value_of_number.
    change (JSON.parse_fraction false 0 rest = Some (JSON.Num zero, rest)).
    now rewrite parse_fraction_absent.
  - destruct (finite_is_finite x s m e E) as (Hnan & Hzero & Hinf & Hlt & Eabs & Ex).
    destruct (shortest_reads_back (abs x) m e Eabs) as [Hpos Hround].
    cbn [JSON.stringify]. unfold is_finite. rewrite Hnan, Hinf. cbn [orb negb].
    unfold JS.number_toString. rewrite Hnan, Hzero, Hinf, Hlt.
    destruct (JS.shortest (abs x)) as [sd p]. cbn [fst snd] in *.
    destruct s.
    + cbn [String.append]. rewrite parse_value_minus, parse_number_format by assumption.
      rewrite round_decimal_negative, Hround, <- Ex by lia. reflexivity.
    + apply parse_value_of_number. rewrite parse_number_format by assumption.
      rewrite Hround, <- Ex. reflexivity.
Qed.

(** Strings. *)

Lemma parse_string_unit (c : ascii) (t : string) :
  JSON.parse_string (JSON.quote_unit c +:+ t)
  = match JSON.parse_string t with
    | Some (u, r) => Some (String c u, r)
    | None => None
    end.
Proof. ascii_cases c; reflexivity. Qed.

Lemma parse_string_quote_units (s rest : string) :
  JSON.parse_string (JSON.quote_units s +:+ rest) = Some (s, rest).
Proof.
  induction s as [| c s IH]; [reflexivity |].
  cbn [JSON.quote_units]. rewrite append_assoc, parse_string_unit, IH. reflexivity.
Qed.

Lemma parse_value_string (f : nat) (s rest : string) :
  JSON.parse_value (S f) (JSON.quote s +:+ rest) = Some (JSON.Str s, rest).
Proof.
  unfold JSON.quote. cbn [String.append].
  change (match JSON.parse_string (JSON.quote_units s +:+ rest) with
          | Some (t, r) => Some (JSON.Str t, r)
          | None => None
          end = Some (JSON.Str s, rest)).
  now rewrite parse_string_quote_units.
Qed.

(** Arrays and objects. *)

Lemma comma_separated_cons (part : string) (parts : list string) :
  JSON.comma_separated (part :: parts) = part +:+ more_elements parts.
Proof.
  unfold JSON.comma_separated. revert part.
  induction parts as [| q parts IH]; intros part.
  - simpl. now rewrite append_empty_r.
  - change (String.concat "," (part :: q :: parts))
      with (part +:+ "," +:+ String.concat "," (q :: parts)).
    rewrite IH. reflexivity.
Qed.

Lemma more_elements_ends_number (parts : list string) (close : ascii) (rest : string) :
  JS.code close = 93 \/ JS.code close = 125 ->
  ends_number (more_elements parts +:+ String close rest) = true.
Proof.
  intros H. destruct parts as [| part parts]; [| reflexivity].
  cbn [more_elements String.append ends_number].
  assert (E : JS.is_digit close = false)
    by (unfold JS.is_digit; destruct H as [-> | ->]; reflexivity).
  rewrite E. destruct H as [-> | ->]; reflexivity.
Qed.

(** A text from which a value is read does not begin, after white space,
    with a closing bracket. *)
Lemma parse_value_not_closing {A : Type} (f : nat) (t : string) (r : JSON.value * string)
    (closed : string -> A) (other : A) :
  JSON.parse_value (S f) t = Some r ->
  match JSON.skip_space t with
  | String "]" rest => closed rest
  | _ => other
  end = other.
Proof.
  cbn [JSON.parse_value]. destruct (JSON.skip_space t) as [| c s1]; [reflexivity |].
  ascii_cases c; intros H; first [reflexivity | simpl in H; discriminate H].
Qed.

Lemma parse_elements_more (pv : string -> option (JSON.value * string)) (vs : list JSON.value) :
  forall (n : nat) (rest : string),
  (length vs < n)%nat ->
  (forall v r, In v vs -> ends_number r = true -> pv (JSON.stringify v +:+ r) = Some (v, r)) ->
  JSON.parse_elements pv n (more_elements (map JSON.stringify vs) +:+ String "]" rest)
  = Some (vs, rest).
Proof.
  induction vs as [| v vs IH]; intros n rest Hn Hpv.
  - destruct n; [simpl in Hn; lia | reflexivity].
  - destruct n as [| n]; [simpl in Hn; lia |].
    cbn [map more_elements String.append JSON.parse_elements JSON.skip_space].
    change (JSON.is_json_space ",") with false. cbv iota.
    rewrite append_assoc, Hpv; [| now left |].
    + rewrite IH; [reflexivity | simpl in Hn; lia |].
      intros v' r Hin. apply Hpv. now right.
    + apply (more_elements_ends_number _ "]"). now left.
Qed.

Lemma parse_member_text (pv : string -> option (JSON.value * string))
    (kv : string * JSON.value) (r : string) :
  pv (JSON.stringify (snd kv) +:+ r) = Some (snd kv, r) ->
  JSON.parse_member pv (member_text kv +:+ r) = Some (fst kv, snd kv, r).
Proof.
  intros Hpv. unfold member_text, JSON.quote, JSON.parse_member.
  cbn [String.append JSON.skip_space].
  change (JSON.is_json_space JSON.quotation_mark) with false. cbv iota.
  change (JS.code JSON.quotation_mark =? 34) with true. cbv iota.
  rewrite append_assoc, parse_string_quote_units.
  cbn [String.append JSON.skip_space].
  change (JSON.is_json_space ":") with false. cbv iota.
  rewrite Hpv. reflexivity.
Qed.

Lemma parse_members_more (pv : string -> option (JSON.value * string))
    (ps : list (string * JSON.value)) :
  forall (n : nat) (rest : string),
  (length ps < n)%nat ->
  (forall kv r, In kv ps -> ends_number r = true ->
     pv (JSON.stringify (snd kv) +:+ r) = Some (snd kv, r)) ->
  JSON.parse_members pv n (more_elements (map member_text ps) +:+ String "}" rest)
  = Some (ps, rest).
Proof.
  induction ps as [| kv ps IH]; intros n rest Hn Hpv.
  - destruct n; [simpl in Hn; lia | reflexivity].
  - destruct n as [| n]; [simpl in Hn; lia |].
    cbn [map more_elements String.append JSON.parse_members JSON.skip_space].
    change (JSON.is_json_space ",") with false. cbv iota.
    rewrite append_assoc, parse_member_text.
    + rewrite IH; [destruct kv; reflexivity | simpl in Hn; lia |].
      intros kv' r Hin. apply Hpv. now right.
    + apply Hpv; [now left |]. apply (more_elements_ends_number _ "}"). now right.
Qed.

Lemma fuel_needed_positive (v : JSON.value) : (1 <= fuel_needed v)%nat.
Proof. destruct v; simpl; lia. Qed.

Lemma fold_max_bound {A : Type} (size : A -> nat) (l : list A) (x : A) :
  In x l -> (size x <= fold_right (fun y n => Nat.max (size y) n) 0%nat l)%nat.
Proof.
  induction l as [| a l IH]; simpl; [intros [] |].
  intros [-> | H]; [lia |]. specialize (IH H). lia.
Qed.

(** Every value whose numbers JSON text can carry is read back from its
    text, with enough budget. *)
Lemma parse_value_stringify (fuel : nat) :
  forall (v : JSON.value) (rest : string),
  (fuel_needed v <= fuel)%nat -> json_safe v = true -> ends_number rest = true ->
  JSON.parse_value fuel (JSON.stringify v +:+ rest) = Some (v, rest).
Proof.
  induction fuel as [| f IH]; intros v rest Hfuel Hsafe Hrest.
  - pose proof (fuel_needed_positive v). lia.
  - destruct v as [| [] | x | s | elements | properties].
    + reflexivity.
    + reflexivity.
    + reflexivity.
    + now apply parse_value_number.
    + apply parse_value_string.
    + cbn [fuel_needed] in Hfuel. cbn [json_safe] in Hsafe.
      rewrite forallb_forall in Hsafe.
      destruct elements as [| v vs]; [reflexivity |].
      cbn [JSON.stringify]. rewrite map_cons, comma_separated_cons.
      cbn [String.append]. rewrite !append_assoc. cbn [String.append].
      set (tail := more_elements (map JSON.stringify vs) +:+ String "]" rest).
      assert (Hv : JSON.parse_value f (JSON.stringify v +:+ tail) = Some (v, tail)).
      { apply IH.
        - pose proof (fold_max_bound fuel_needed (v :: vs) v (or_introl eq_refl)). lia.
        - apply Hsafe. now left.
        - apply (more_elements_ends_number _ "]"). now left. }
      assert (Hf : exists f', f = S f').
      { destruct f; [| eauto]. simpl in Hfuel. lia. }
      destruct Hf as [f' ->].
      change (match JSON.skip_space (JSON.stringify v +:+ tail) with
              | String "]" r => Some (JSON.Arr [], r)
              | _ =>
                  match JSON.parse_value (S f') (JSON.stringify v +:+ tail) with
                  | Some (v0, s2) =>
                      match JSON.parse_elements (JSON.parse_value (S f')) (S f') s2 with
                      | Some (vs0, r) => Some (JSON.Arr (v0 :: vs0), r)
                      | None => None
                      end
                  | None => None
                  end
              end = Some (JSON.Arr (v :: vs), rest)).
      rewrite (parse_value_not_closing f' _ _ _ _ Hv), Hv. unfold tail.
      rewrite parse_elements_more; [reflexivity | simpl in Hfuel; lia |].
      intros v' r Hin Hr. apply IH; [| apply Hsafe; now right | assumption].
      pose proof (fold_max_bound fuel_needed (v :: vs) v' (or_intror Hin)). lia.
    + cbn [fuel_needed] in Hfuel. cbn [json_safe] in Hsafe.
      rewrite forallb_forall in Hsafe.
      destruct properties as [| kv ps]; [reflexivity |].
      cbn [JSON.stringify]. fold member_text.
      change (map (fun kv0 => JSON.quote (fst kv0) +:+ String ":" (JSON.stringify (snd kv0))))
        with (map member_text).
      rewrite map_cons, comma_separated_cons.
      cbn [String.append]. rewrite !append_assoc. cbn [String.append].
      set (tail := more_elements (map member_text ps) +:+ String "}" rest).
      assert (Hkv : JSON.parse_member (JSON.parse_value f) (member_text kv +:+ tail)
                    = Some (fst kv, snd kv, tail)).
      { apply parse_member_text. apply IH.
        - pose proof (fold_max_bound (fun kv => fuel_needed (snd kv)) (kv :: ps) kv
                        (or_introl eq_refl)). simpl in *. lia.
        - apply (Hsafe kv). now left.
        - apply (more_elements_ends_number _ "}"). now right. }
      assert (Ehead : exists t, member_text kv +:+ tail = String JSON.quotation_mark t)
        by (unfold member_text, JSON.quote; cbn [String.append]; eauto).
      destruct Ehead as [t Et].
      change (match JSON.skip_space (member_text kv +:+ tail) with
              | String "}" r => Some (JSON.Obj [], r)
              | _ =>
                  match JSON.parse_member (JSON.parse_value f) (member_text kv +:+ tail) with
                  | Some (k, v0, s2) =>
                      match JSON.parse_members (JSON.parse_value f) f s2 with
                      | Some (ps0, r) => Some (JSON.Obj ((k, v0) :: ps0), r)
                      | None => None
                      end
                  | None => None
                  end
              end = Some (JSON.Obj (kv :: ps), rest)).
      rewrite Hkv. rewrite Et. cbn [JSON.skip_space].
      change (JSON.is_json_space JSON.quotation_mark) with false. cbv iota.
      unfold tail. rewrite parse_members_more.
      * destruct kv; reflexivity.
      * simpl in Hfuel. lia.
      * intros kv' r Hin Hr. apply IH; [| apply (Hsafe kv'); now right | assumption].
        pose proof (fold_max_bound (fun kv => fuel_needed (snd kv)) (kv :: ps) kv'
                      (or_intror Hin)). simpl in *. lia.
Qed.

(** Induction on values through their elements and properties. *)
Lemma value_induction (P : JSON.value -> Prop) :
  P JSON.Null ->
  (forall b, P (JSON.Bool b)) ->
  (forall x, P (JSON.Num x)) ->
  (forall s, P (JSON.Str s)) ->
  (forall elements, Forall P elements -> P (JSON.Arr elements)) ->
  (forall properties, Forall (fun kv => P (snd kv)) properties -> P (JSON.Obj properties)) ->
  forall v, P v.
Proof.
  intros Hnull Hbool Hnum Hstr Harr Hobj.
  fix IH 1. intros [| b | x | s | elements | properties].
  - exact Hnull.
  - apply Hbool.
  - apply Hnum.
  - apply Hstr.
  - apply Harr. induction elements as [| v vs IHvs]; constructor; [apply IH | exact IHvs].
  - apply Hobj. induction properties as [| [k v] ps IHps]; constructor; [apply IH | exact IHps].
Qed.

Lemma length_more_elements (parts : list string) :
  (length parts <= String.length (more_elements parts))%nat
  /\ forall part, In part parts ->
       (String.length part < String.length (more_elements parts))%nat.
Proof.
  induction parts as [| q parts [IH1 IH2]]; [split; [simpl; lia | intros ? []] |].
  cbn [more_elements String.length length]. rewrite length_append. split; [lia |].
  intros part [-> | H]; [lia |]. specialize (IH2 part H). lia.
Qed.

Lemma length_comma_separated (parts : list string) :
  (length parts <= S (String.length (JSON.comma_separated parts)))%nat
  /\ forall part, In part parts ->
       (String.length part <= String.length (JSON.comma_separated parts))%nat.
Proof.
  destruct parts as [| q parts]; [split; [simpl; lia | intros ? []] |].
  rewrite comma_separated_cons, length_append.
  destruct (length_more_elements parts) as [H1 H2]. split; [simpl; lia |].
  intros part [-> | H]; [lia |]. specialize (H2 part H). lia.
Qed.

Lemma fold_max_le {A : Type} (size : A -> nat) (l : list A) (bound : nat) :
  (forall x, In x l -> (size x <= bound)%nat) ->
  (fold_right (fun y n => Nat.max (size y) n) 0%nat l <= bound)%nat.
Proof.
  induction l as [| a l IH]; simpl; intros H; [lia |].
  pose proof (H a (or_introl eq_refl)). specialize (IH (fun x Hx => H x (or_intror Hx))). lia.
Qed.

(** The length of the text is budget enough. *)
Lemma fuel_needed_length (v : JSON.value) :
  (fuel_needed v <= String.length (JSON.stringify v))%nat.
Proof.
  induction v as [| [] | x | s | elements IH | properties IH] using value_induction;
    try (simpl; lia).
  - cbn [JSON.stringify]. destruct (is_finite x); [| simpl; lia].
    unfold JS.number_toString.
    destruct (is_nan x); [simpl; lia |]. destruct (is_zero x); [simpl; lia |].
    destruct (is_infinity x); [destruct (x <? 0)%float; simpl; lia |].
    destruct (JS.shortest (abs x)) as [sd p].
    pose proof (format_digits_nonempty (JS.decimal sd) p (decimal_nonempty sd)).
    destruct (x <? 0)%float; simpl; lia.
  - cbn [fuel_needed JSON.stringify String.length]. rewrite length_append.
    destruct (length_comma_separated (map JSON.stringify elements)) as [H1 H2].
    rewrite length_map in H1.
    assert (H3 : (fold_right (fun v n => Nat.max (fuel_needed v) n) 0 elements
                  <= String.length (JSON.comma_separated (map JSON.stringify elements)))%nat).
    { apply fold_max_le. intros v Hv. rewrite List.Forall_forall in IH.
      specialize (IH v Hv). specialize (H2 (JSON.stringify v) (in_map _ _ _ Hv)). lia. }
    simpl. lia.
  - cbn [fuel_needed JSON.stringify String.length]. rewrite length_append.
    destruct (length_comma_separated
                (map (fun kv => JSON.quote (fst kv) +:+ String ":" (JSON.stringify (snd kv)))
                     properties)) as [H1 H2].
    rewrite length_map in H1.
    match goal with |- context [JSON.comma_separated ?parts] => set (cs := JSON.comma_separated parts) in * end.
    assert (H3 : (fold_right (fun kv n => Nat.max (fuel_needed (snd kv)) n) 0 properties
                  <= String.length cs)%nat).
    { apply fold_max_le. intros kv Hkv. rewrite List.Forall_forall in IH.
      specialize (IH kv Hkv).
      specialize (H2 _ (in_map (fun kv => JSON.quote (fst kv) +:+ String ":" (JSON.stringify (snd kv)))
                          _ _ Hkv)).
      cbv beta in H2. rewrite length_append in H2. simpl in H2. lia. }
    simpl. lia.
Qed.

(** [JSON.parse] undoes [JSON.stringify] on every value whose numbers are
    finite and not negative zero. *)
Lemma parse_stringify (v : JSON.value) :
  json_safe v = true -> JSON.parse (JSON.stringify v) = Some v.
Proof.
  intros Hsafe. unfold JSON.parse.
  pose proof (parse_value_stringify (S (String.length (JSON.stringify v))) v ""
                ltac:(pose proof (fuel_needed_length v); lia) Hsafe eq_refl) as H.
  rewrite append_empty_r in H. rewrite H. reflexivity.
Qed.

(** ** Persistence *)

Lemma expenses_to_json_safe (l : list Expense) :
  (forall e, In e l -> json_number (amount e) = true) ->
  json_safe (expenses_to_json l) = true.
Proof.
  intros H. cbn [expenses_to_json json_safe]. apply forallb_forall.
  intros v Hv. apply in_map_iff in Hv as (e & <- & He).
  cbn. rewrite (H e He). reflexivity.
Qed.

Lemma expenses_of_to_json (l : list Expense) :
  expenses_of_json (expenses_to_json l) = Some l.
Proof.
  cbn [expenses_of_json expenses_to_json].
  induction l as [| e l IH]; [reflexivity |].
  cbn [map all_expenses]. rewrite IH. destruct e. reflexivity.
Qed.

Lemma saved_text_truthy (l : list Expense) :
  JS.falsy (JSON.stringify (expenses_to_json l)) = false.
Proof. reflexivity. Qed.

(** C8, as the code has it: an amount that is not a number is saved as
    [null], so what the next mount reads back is not the saved collection;
    the [expenses] cell then holds a value that is not an [Expense[]]. *)
Lemma reload_loses_NaN :
  amount unreadable = nan
  /\ loadEffect (saveEffect [unreadable] ∅) = Parsed unreadableReloaded
  /\ expenses_of_json unreadableReloaded = None
  /\ mount sampleEnv (saveEffect [unreadable] ∅) = Broken unreadableReloaded
  /\ JSON.parse (JSON.stringify (JSON.Num infinity)) = Some JSON.Null
  /\ JSON.parse (JSON.stringify (JSON.Num neg_zero)) = Some (JSON.Num zero).
Proof. repeat split; reflexivity. Qed.

(** C8, amended. When every amount of the collection is finite and not
    negative zero, saving it and mounting the page again gives the same
    collection, entry by entry and in order, and the store still holds its
    text. *)
Theorem reload_after_save (env : Env) (l : list Expense) (store : gmap string string) :
  (forall e, In e l -> json_number (amount e) = true) ->
  mount env (saveEffect l store)
  = Running {| state := setExpenses l (initialState env);
               localStorage := saveEffect l store;
               log := [] |}.
Proof.
  intros Hl. unfold mount, loadEffect, saveEffect.
  rewrite lookup_insert_eq.
  rewrite saved_text_truthy.
  rewrite parse_stringify by now apply expenses_to_json_safe.
  rewrite expenses_of_to_json.
  do 2 f_equal. now rewrite !insert_insert_eq.
Qed.

Lemma reload_after_save_witness :
  mount sampleEnv (saveEffect [dinner; bus; lunch] ∅)
  = Running {| state := setExpenses [dinner; bus; lunch] (initialState sampleEnv);
               localStorage := saveEffect [dinner; bus; lunch] ∅;
               log := [] |}.
Proof.
  apply reload_after_save.
  intros e [<- | [<- | [<- | []]]]; reflexivity.
Defined.

(** ** Amounts read from unsigned numerals *)

Lemma shr_1_nonneg (mrs : shr_record) : 0 <= shr_m mrs -> 0 <= shr_m (shr_1 mrs).
Proof.
  destruct mrs as [m r s]. destruct m as [| p | p]; simpl; [lia | | lia].
  intros _. destruct p; simpl; lia.
Qed.

Lemma iter_shr_1_nonneg (k : nat) (mrs : shr_record) :
  0 <= shr_m mrs -> 0 <= shr_m (Nat.iter k shr_1 mrs).
Proof.
  induction k as [| k IH]; intros H; [assumption |].
  rewrite Nat.iter_succ. apply shr_1_nonneg, IH, H.
Qed.

Lemma shr_fexp_nonneg (m e : Z) (l : location) :
  0 <= m -> 0 <= shr_m (fst (shr_fexp prec emax m e l)).
Proof.
  intros Hm. unfold shr_fexp, shr.
  assert (H : 0 <= shr_m (shr_record_of_loc m l)) by (destruct l as [| []]; assumption).
  destruct (_ - e) as [| p | p]; cbn [fst]; try assumption.
  rewrite iter_pos_nat. now apply iter_shr_1_nonneg.
Qed.

Lemma round_nearest_even_nonneg (m : Z) (l : location) :
  0 <= m -> 0 <= round_nearest_even m l.
Proof. intros H. destruct l as [| []]; simpl; try destruct (Z.even m); lia. Qed.

Lemma binary_round_aux_sign (sx : bool) (mx ex : Z) (lx : location) :
  0 <= mx -> has_sign sx (binary_round_aux prec emax sx mx ex lx).
Proof.
  intros Hm. unfold binary_round_aux.
  pose proof (shr_fexp_nonneg mx ex lx Hm) as H1.
  destruct (shr_fexp prec emax mx ex lx) as [mrs e']. cbn [fst] in H1.
  pose proof (shr_fexp_nonneg _ e' loc_Exact
                (round_nearest_even_nonneg _ (loc_of_shr_record mrs) H1)) as H2.
  destruct (shr_fexp prec emax _ e' loc_Exact) as [mrs' e'']. cbn [fst] in H2.
  destruct (shr_m mrs') as [| p | p]; [reflexivity | | lia].
  destruct (Z.leb _ _); reflexivity.
Qed.

Lemma binary_round_has_sign (sx : bool) (m : positive) (e : Z) :
  has_sign sx (binary_round prec emax sx m e).
Proof.
  unfold binary_round. destruct (shl_align _ _ _) as [mz ez].
  apply binary_round_aux_sign. lia.
Qed.

Lemma binary_normalize_has_sign (m e : Z) :
  0 <= m -> has_sign false (binary_normalize prec emax m e false).
Proof.
  intros Hm. destruct m as [| p | p]; [reflexivity | | lia].
  apply binary_round_has_sign.
Qed.

(** Turning such a value into a number keeps it a number of that sign. *)
Lemma SF2Prim_has_sign (x : spec_float) :
  has_sign false x -> has_sign false (Prim2SF (SF2Prim x)).
Proof.
  destruct x as [s | s | | s m e]; simpl; intros H; try subst s; try reflexivity; [contradiction |].
  rewrite Z_ldexp_spec, of_uint63_spec.
  pose proof (Uint63.to_Z_bounded (Uint63.of_Z (Zpos m))) as Hb.
  pose proof (binary_normalize_has_sign (Uint63.to_Z (Uint63.of_Z (Zpos m))) 0
                ltac:(lia)) as Hn.
  destruct (binary_normalize _ _ _ _ _) as [s | s | | s m' e']; simpl in *;
    try assumption.
  subst s. apply binary_round_has_sign.
Qed.

Lemma has_sign_not_negative (x : float) :
  has_sign false (Prim2SF x) -> is_nan x = false /\ (x <? 0)%float = false.
Proof.
  unfold is_nan. rewrite FloatAxioms.eqb_spec, FloatAxioms.ltb_spec.
  change (Prim2SF 0%float) with (S754_zero false).
  destruct (Prim2SF x) as [s | s | | s m e]; simpl; intros H; try subst s;
    try contradiction; unfold SFeqb, SFltb, SFcompare;
    rewrite ?Z.compare_refl, ?compare_cont_same; split; reflexivity.
Qed.

Lemma round_decimal_not_negative (m e : Z) :
  0 <= m -> has_sign false (Prim2SF (JS.round_decimal false m e)).
Proof.
  intros Hm.
  assert (H : forall n d, 0 <= n -> 0 < d -> has_sign false (Prim2SF (JS.round_ratio false n d))).
  { intros n d Hn Hd. unfold JS.round_ratio. destruct (n =? 0); [reflexivity |].
    apply SF2Prim_has_sign, binary_normalize_has_sign.
    assert (0 <= n * 2 ^ Z.max 0 (64 + Z.log2 d - Z.log2 n) / d).
    { apply Z.div_pos; [| assumption].
      apply Z.mul_nonneg_nonneg; [assumption | apply Z.pow_nonneg; lia]. }
    destruct (_ =? 0); lia. }
  unfold JS.round_decimal. destruct (Z.leb_spec 0 e).
  - apply H; [| lia]. apply Z.mul_nonneg_nonneg; [assumption | apply Z.pow_nonneg; lia].
  - apply H; [assumption |]. apply Z.pow_pos_nonneg; lia.
Qed.

Lemma digit_value_nonneg (c : ascii) : JS.is_digit c = true -> 0 <= JS.digit_value c.
Proof.
  unfold JS.is_digit, JS.digit_value. intros H.
  apply andb_true_iff in H as [H _]. apply Z.leb_le in H. lia.
Qed.

(** Scanning digits keeps a value that is not negative and counts the
    digits it reads. *)
Lemma scan_digits_facts (s : string) :
  forall acc count, 0 <= acc ->
  0 <= fst (fst (JS.scan_digits acc count s))
  /\ count <= snd (fst (JS.scan_digits acc count s))
  /\ (no_leading_digit s = false -> count < snd (fst (JS.scan_digits acc count s)))
  /\ (no_leading_digit s = true -> JS.scan_digits acc count s = (acc, count, s)).
Proof.
  induction s as [| c s IH]; intros acc count Hacc.
  - simpl. split; [lia | split; [lia | split; [discriminate | reflexivity]]].
  - cbn [JS.scan_digits no_leading_digit]. destruct (JS.is_digit c) eqn:Ec.
    + pose proof (digit_value_nonneg c Ec).
      destruct (IH (10 * acc + JS.digit_value c) (count + 1)) as (H1 & H2 & _); [lia |].
      split; [assumption | split; [lia | split; [intros _; lia | discriminate]]].
    + simpl. split; [lia | split; [lia | split; [discriminate | reflexivity]]].
Qed.

(** An unsigned numeral is read as a number that is not below zero. *)
Lemma parseFloat_unsigned_numeral (t : string) :
  unsigned_numeral t = true ->
  is_nan (JS.parseFloat t) = false /\ (JS.parseFloat t <? 0)%float = false.
Proof.
  intros Ht. apply has_sign_not_negative.
  destruct t as [| c rest]; [discriminate |].
  assert (E : JS.parseFloat (String c rest) = JS.parse_unsigned false (String c rest)).
  { revert Ht. ascii_cases c; intros Ht; first [reflexivity | discriminate Ht]. }
  rewrite E. unfold JS.parse_unsigned.
  assert (Einf : JS.starts_with "Infinity" (String c rest) = false).
  { revert Ht. clear E. ascii_cases c; intros Ht; first [reflexivity | discriminate Ht]. }
  rewrite Einf.
  destruct (scan_digits_facts (String c rest) 0 0 ltac:(lia)) as (H1 & H2 & H3 & H4).
  destruct (JS.scan_digits 0 0 (String c rest)) as [[i ni] s1] eqn:Es.
  cbn [fst snd] in *.
  cbn [unsigned_numeral] in Ht.
  destruct (JS.is_digit c) eqn:Ec.
  - (* digits first *)
    assert (Hni : 0 < ni) by (apply H3; cbn [no_leading_digit]; now rewrite Ec).
    destruct s1 as [| c1 s2].
    + destruct (Z.eqb_spec ni 0); [lia |]. now apply round_decimal_not_negative.
    + assert (Hgoal : forall y, has_sign false (Prim2SF
                (if (ni =? 0) && y then nan else JS.round_decimal false
                   (fst (fst (JS.scan_digits i 0 s2)))
                   (JS.scan_exponent (snd (JS.scan_digits i 0 s2))
                      - snd (fst (JS.scan_digits i 0 s2)))))).
      { intros y. destruct (Z.eqb_spec ni 0); [lia |]. simpl.
        apply round_decimal_not_negative.
        now destruct (scan_digits_facts s2 i 0 H1) as (H & _). }
      specialize (Hgoal (snd (fst (JS.scan_digits i 0 s2)) =? 0)).
      destruct (JS.scan_digits i 0 s2) as [[m nf] s3]. cbn [fst snd] in Hgoal.
      ascii_cases c1;
        first [exact Hgoal
              | destruct (Z.eqb_spec ni 0); [lia | now apply round_decimal_not_negative]].
  - (* a point, then digits *)
    simpl in Ht. apply andb_true_iff in Ht as [Hc Hd].
    assert (Erest : exists d rest', rest = String d rest' /\ JS.is_digit d = true).
    { destruct rest as [| d rest']; [discriminate | eauto]. }
    destruct Erest as (d & rest' & -> & Hd').
    assert (Hs : (i, ni, s1) = (0, 0, String c (String d rest'))).
    { rewrite <- Es. cbn [JS.scan_digits]. now rewrite Ec. }
    injection Hs as -> -> ->.
    destruct (scan_digits_facts (String d rest') 0 0 ltac:(lia)) as (G1 & _ & G3 & _).
    specialize (G3 ltac:(cbn [no_leading_digit]; now rewrite Hd')).
    destruct (JS.scan_digits 0 0 (String d rest')) as [[m nf] s3]. cbn [fst snd] in *.
    revert Hc. ascii_cases c; intros Hc; try discriminate Hc.
    cbv iota. destruct (Z.eqb_spec nf 0); [lia |]. simpl.
    now apply round_decimal_not_negative.
Qed.

(** ** The invariant of the data model *)

Lemma dispatch_form (ev : Event) (env : Env) (w : World) :
  plain_input ev -> plain_form (formData (state w)) ->
  plain_form (formData (state (dispatch (handler ev) env w))).
Proof.
  intros Hev [Hc Ha]. unfold dispatch.
  destruct ev as [name value | c | | i | | |]; cbn [handler].
  - destruct Hev as [Hcat Hamt]. unfold handleInputChange.
    destruct (String.eqb_spec name "date"); [split; assumption |].
    destruct (String.eqb_spec name "category"); [split; [now apply Hcat | assumption] |].
    destruct (String.eqb_spec name "amount"); [split; [assumption | now apply Hamt] |].
    destruct (String.eqb_spec name "description"); split; assumption.
  - split; assumption.
  - unfold handleAddExpense. destruct (_ || _ || _); [split; assumption |].
    split; [left; reflexivity | left; reflexivity].
  - split; assumption.
  - unfold handleDeleteAll. destruct (confirm env _); split; assumption.
  - unfold handleDeleteByCategory.
    destruct (String.eqb _ _); [split; assumption |].
    destruct (Nat.eqb _ _); [split; assumption |].
    destruct (confirm env _); split; assumption.
  - unfold downloadPDF. destruct (Nat.eqb _ _); [split; assumption |].
    destruct (pdfError env); split; assumption.
Qed.

Lemma newExpense_sound (env : Env) (f : Form.t) :
  JS.falsy (Form.date f) = false -> JS.falsy (Form.amount f) = false ->
  plain_form f -> sound (newExpense env f).
Proof.
  intros Hd Ha [Hc Hamt]. unfold sound, newExpense. cbn [date category amount].
  split; [intros E; rewrite E in Hd; discriminate |].
  split; [assumption |].
  apply parseFloat_unsigned_numeral.
  destruct Hamt as [E | E]; [rewrite E in Ha; discriminate | assumption].
Qed.

Lemma dispatch_sound (ev : Event) (env : Env) (w : World) :
  plain_form (formData (state w)) ->
  List.Forall sound (expenses (state w)) ->
  List.Forall sound (expenses (state (dispatch (handler ev) env w))).
Proof.
  intros Hf Hl. rewrite List.Forall_forall in *.
  destruct (dispatch_expenses ev env w) as [Hsub | (_ & Hd & _ & Ha & ->)].
  - intros e He. apply Hl. now apply (sublist_In _ _ _ Hsub).
  - intros e [<- | He]; [now apply newExpense_sound | now apply Hl].
Qed.

(** C6, as the code has it: validation lets through a category that is not
    of the fixed set and an amount text that is not a numeral, stored as NaN;
    and on a fresh page the amount text [-5] gives a stored amount below
    zero. *)
Lemma validation_lets_through :
  (exists e,
     expenses (next (handleAddExpense sampleEnv
                       (setFormData otherForm (initialState sampleEnv)))) = [e]
     /\ existsb (String.eqb (category e)) categories = false
     /\ is_nan (amount e) = true)
  /\ (exists e,
        expenses (state (run negativeSession freshWorld)) = [e]
        /\ date e = "2024-01-05"
        /\ In (category e) categories
        /\ amount e = (-5)%float
        /\ (amount e <? 0)%float = true
        /\ localStorage (run negativeSession freshWorld) !! "expenses"
           = Some (JSON.stringify (expenses_to_json [e]))).
Proof.
  split.
  - eexists. repeat split; reflexivity.
  - eexists. split; [reflexivity |].
    split; [reflexivity |]. split; [left; reflexivity |].
    split; [reflexivity |]. split; [reflexivity |].
    cbn [run negativeSession]. unfold dispatch at 1. cbn [handler].
    remember (dispatch _ _ _) as w eqn:Ew.
    assert (E : expensesSet (handleAddExpense sampleEnv (state w)) = true)
      by (subst w; reflexivity).
    cbn [localStorage]. rewrite E. unfold saveEffect. rewrite lookup_insert_eq.
    subst w. reflexivity.
Qed.

(** C6, amended. Along a session in which every category handed to the
    form is one of the fixed set and every amount text is empty or an
    unsigned numeral, every entry of the collection has a non-empty date, a
    category of the fixed set and an amount that is a number and not below
    zero, given that the entries at the start have: every operation
    preserves this. *)
Theorem sound_entries_preserved (steps : list (Env * Event)) (w : World) :
  List.Forall (fun step => plain_input (snd step)) steps ->
  plain_form (formData (state w)) ->
  List.Forall sound (expenses (state w)) ->
  List.Forall sound (expenses (state (run steps w)))
  /\ plain_form (formData (state (run steps w))).
Proof.
  revert w. induction steps as [| [env ev] rest IH]; intros w Hsteps Hf Hl.
  - split; assumption.
  - inversion Hsteps as [| ? ? Hev Hrest]; subst. cbn [run]. apply IH.
    + assumption.
    + now apply dispatch_form.
    + now apply dispatch_sound.
Qed.

Lemma sound_entries_preserved_witness :
  List.Forall sound (expenses (state (run tickingSession freshWorld))).
Proof.
  refine (proj1 (sound_entries_preserved tickingSession freshWorld _ _ _)).
  - repeat constructor; cbn; try discriminate; right; reflexivity.
  - split; [left; reflexivity | left; reflexivity].
  - constructor.
Defined.

(** * Further properties of the page *)

(** ** Bulk deletion *)

(** X1. A click on Delete All asks once for confirmation. When the answer
    is yes the collection becomes empty, whatever the filter shows, and the
    store holds the text of the empty array; when it is no the collection
    and the store stay as they are. The filter and the form are untouched
    either way. *)
Theorem handleDeleteAll_spec (env : Env) (w : World) :
  let w' := dispatch handleDeleteAll env w in
  log w' = (log w ++ [Confirm deleteAllPrompt (confirm env deleteAllPrompt)])%list
  /\ filterCategory (state w') = filterCategory (state w)
  /\ formData (state w') = formData (state w)
  /\ (if confirm env deleteAllPrompt
      then expenses (state w') = []
           /\ localStorage w' = <["expenses" := "[]"]> (localStorage w)
      else expenses (state w') = expenses (state w)
           /\ localStorage w' = localStorage w).
Proof.
  cbv zeta. unfold dispatch, handleDeleteAll.
  destruct (confirm env deleteAllPrompt); simpl; repeat split; reflexivity.
Qed.

(** The entries that Delete Category counts are those of the filtered view
    whenever a category is selected. *)
Lemma filteredExpenses_category (s : State) :
  String.eqb (filterCategory s) "All" = false ->
  filteredExpenses s
  = List.filter (fun expense => String.eqb (category expense) (filterCategory s)) (expenses s).
Proof. intros E. unfold filteredExpenses. now rewrite E. Qed.

(** X2. Unless the user says yes to the prompt that names the number of
    entries in view and the category, a click on Delete Category changes
    neither the cells nor the store. *)
Theorem handleDeleteByCategory_declined (env : Env) (w : World) :
  confirm env (deleteByCategoryPrompt (length (filteredExpenses (state w)))
                                      (filterCategory (state w))) = false ->
  let w' := dispatch handleDeleteByCategory env w in
  state w' = state w
  /\ localStorage w' = localStorage w
  /\ length (log w') = S (length (log w)).
Proof.
  intros Hno. cbv zeta. unfold dispatch, handleDeleteByCategory.
  destruct (String.eqb (filterCategory (state w)) "All") eqn:E.
  - simpl. rewrite length_app. simpl. repeat split; lia.
  - rewrite (filteredExpenses_category _ E) in Hno.
    destruct (Nat.eqb _ 0).
    + simpl. rewrite length_app. simpl. repeat split; lia.
    + rewrite Hno. simpl. rewrite length_app. simpl. repeat split; lia.
Qed.

Lemma handleDeleteByCategory_declined_witness :
  expenses (state (dispatch handleDeleteByCategory decliningEnv sampleWorld))
  = [dinner; bus; lunch].
Proof.
  exact (f_equal expenses
           (proj1 (handleDeleteByCategory_declined decliningEnv sampleWorld eq_refl))).
Defined.

Lemma filter_twice_none {A : Type} (keep : A -> bool) (l : list A) :
  List.filter keep (List.filter (fun x => negb (keep x)) l) = [].
Proof.
  apply filter_keeps_none. intros x Hx. apply filter_In in Hx as [_ Hx].
  now apply negb_true_iff.
Qed.

(** X3. Once a category is selected and the user says yes, a click on
    Delete Category leaves a page with nothing in view: the filtered view is
    empty and the total is zero, the collection has shrunk by the number of
    entries that were in view, and a click on Download is then turned down. *)
Theorem handleDeleteByCategory_empties_view (env env' : Env) (w : World) :
  filterCategory (state w) <> "All" ->
  confirm env (deleteByCategoryPrompt (length (filteredExpenses (state w)))
                                      (filterCategory (state w))) = true ->
  let w' := dispatch handleDeleteByCategory env w in
  filteredExpenses (state w') = []
  /\ totalAmount (state w') = 0%float
  /\ emptyState (render (state w')) = true
  /\ (length (expenses (state w')) + length (filteredExpenses (state w)))%nat
     = length (expenses (state w))
  /\ log (dispatch downloadPDF env' w') = (log w' ++ [Alert "No expenses to download"])%list.
Proof.
  intros Hc Hyes. cbv zeta.
  apply String.eqb_neq in Hc.
  assert (Hview : filteredExpenses (state (dispatch handleDeleteByCategory env w)) = []
                  /\ (length (expenses (state (dispatch handleDeleteByCategory env w)))
                      + length (filteredExpenses (state w)))%nat
                     = length (expenses (state w))).
  { rewrite (filteredExpenses_category _ Hc) in Hyes |- *.
    unfold dispatch, handleDeleteByCategory. rewrite Hc.
    destruct (Nat.eqb _ 0) eqn:En.
    - apply Nat.eqb_eq in En. cbn [next unchanged state]. rewrite En.
      split; [| lia].
      rewrite (filteredExpenses_category _ Hc).
      now apply length_zero_iff_nil.
    - rewrite Hyes. cbn [next state setExpenses expenses].
      split.
      + unfold filteredExpenses, setExpenses. cbn [filterCategory expenses]. rewrite Hc.
        apply filter_twice_none.
      + rewrite Nat.add_comm. apply filter_complement_length. }
  destruct Hview as [Hempty Hlen].
  split; [assumption |].
  split; [unfold totalAmount; now rewrite Hempty |].
  split; [unfold render; cbn [emptyState]; now rewrite Hempty |].
  split; [assumption |].
  unfold dispatch at 1, downloadPDF. rewrite Hempty. reflexivity.
Qed.

Lemma handleDeleteByCategory_empties_view_witness :
  filteredExpenses (state (dispatch handleDeleteByCategory sampleEnv sampleWorld)) = [].
Proof.
  refine (proj1 (handleDeleteByCategory_empties_view sampleEnv sampleEnv sampleWorld _ _)).
  - discriminate.
  - reflexivity.
Defined.

(** ** The filtered view after an event *)






(** X5. An accepted add shows in the filtered view exactly when the filter
    is on All or on the category of the form: the new entry then comes
    first; with another category selected the view stays as it was, though
    the entry is in the collection. *)
Theorem filteredExpenses_after_add (env : Env) (s : State) :
  Form.date (formData s) <> "" ->
  Form.category (formData s) <> "" ->
  Form.amount (formData s) <> "" ->
  let s' := next (handleAddExpense env s) in
  In (newExpense env (formData s)) (expenses s')
  /\ filteredExpenses s'
     = if String.eqb (filterCategory s) "All"
          || String.eqb (Form.category (formData s)) (filterCategory s)
       then newExpense env (formData s) :: filteredExpenses s
       else filteredExpenses s.
Proof.
  intros Hd Hc Ha. cbv zeta. unfold handleAddExpense.
  rewrite (falsy_nonempty _ Hd), (falsy_nonempty _ Hc), (falsy_nonempty _ Ha).
  cbn [orb next setFormData setExpenses expenses filterCategory].
  split; [now left |].
  unfold filteredExpenses, setFormData, setExpenses. cbn [expenses filterCategory].
  destruct (String.eqb (filterCategory s) "All"); [reflexivity |].
  cbn [orb List.filter newExpense category].
  destruct (String.eqb (Form.category (formData s)) (filterCategory s)); reflexivity.
Qed.

Lemma filteredExpenses_after_add_witness :
  filteredExpenses (next (handleAddExpense sampleEnv (state sampleWorld)))
  = newExpense sampleEnv sampleForm :: [dinner; lunch].
Proof.
  exact (proj2 (filteredExpenses_after_add sampleEnv (state sampleWorld)
                  ltac:(discriminate) ltac:(discriminate) ltac:(discriminate))).
Defined.

(** X6. A second click on Add, with nothing typed in between, adds
    nothing: the first click either was turned down, and so is the second,
    or it emptied the amount field, and the second is turned down for that.
    Either way the second click only raises the alert. *)
Theorem second_click_adds_nothing (env1 env2 : Env) (w : World) :
  let w1 := dispatch handleAddExpense env1 w in
  let w2 := dispatch handleAddExpense env2 w1 in
  state w2 = state w1
  /\ localStorage w2 = localStorage w1
  /\ log w2 = (log w1 ++ [Alert "Please fill in all required fields"])%list.
Proof.
  cbv zeta.
  assert (E : JS.falsy (Form.date (formData (state (dispatch handleAddExpense env1 w))))
              || JS.falsy (Form.category (formData (state (dispatch handleAddExpense env1 w))))
              || JS.falsy (Form.amount (formData (state (dispatch handleAddExpense env1 w))))
              = true).
  { unfold dispatch. cbn [state]. unfold handleAddExpense.
    destruct (JS.falsy (Form.date (formData (state w)))
              || JS.falsy (Form.category (formData (state w)))
              || JS.falsy (Form.amount (formData (state w)))) eqn:E1;
      cbn [next unchanged]; [exact E1 |].
    cbn. apply orb_true_r. }
  remember (dispatch handleAddExpense env1 w) as w1 eqn:Ew1. clear Ew1.
  unfold dispatch, handleAddExpense. rewrite E.
  repeat split; reflexivity.
Qed.

(** ** The store along a session *)

(** A handler that does not set the collection leaves it as it is. *)
Lemma unset_keeps_expenses (ev : Event) (env : Env) (s : State) :
  expensesSet (handler ev env s) = false ->
  expenses (next (handler ev env s)) = expenses s.
Proof.
  destruct ev as [name value | c | | i | | |]; cbn [handler].
  - reflexivity.
  - reflexivity.
  - unfold handleAddExpense. destruct (_ || _ || _); [reflexivity | discriminate].
  - discriminate.
  - unfold handleDeleteAll. destruct (confirm env _); [discriminate | reflexivity].
  - unfold handleDeleteByCategory.
    destruct (String.eqb _ _); [reflexivity |].
    destruct (Nat.eqb _ _); [reflexivity |].
    destruct (confirm env _); [discriminate | reflexivity].
  - unfold downloadPDF. destruct (Nat.eqb _ _); [reflexivity |].
    destruct (pdfError env); reflexivity.
Qed.

Lemma dispatch_stored (ev : Event) (env : Env) (w : World) :
  stored w -> stored (dispatch (handler ev) env w).
Proof.
  unfold stored, dispatch. cbn [state localStorage]. intros H.
  destruct (expensesSet (handler ev env (state w))) eqn:E.
  - unfold saveEffect. apply lookup_insert_eq.
  - rewrite (unset_keeps_expenses _ _ _ E). exact H.
Qed.

Lemma run_stored (steps : list (Env * Event)) (w : World) :
  stored w -> stored (run steps w).
Proof.
  revert w. induction steps as [| [env ev] rest IH]; intros w H; [exact H |].
  cbn [run]. apply IH, dispatch_stored, H.
Qed.

Lemma mount_stored (env : Env) (store : gmap string string) (w : World) :
  mount env store = Running w -> stored w.
Proof.
  unfold mount. destruct (loadEffect store) as [| | v].
  - intros [= <-]. apply lookup_insert_eq.
  - intros [= <-]. apply lookup_insert_eq.
  - destruct (expenses_of_json v) as [l |]; [| discriminate].
    intros [= <-]. apply lookup_insert_eq.
Qed.

Lemma mount_empty_store : mount sampleEnv ∅ = Running freshWorld.
Proof. unfold mount, loadEffect. rewrite lookup_empty. reflexivity. Qed.



Lemma dispatch_other_key (key : string) (ev : Event) (env : Env) (w : World) :
  key <> "expenses" ->
  localStorage (dispatch (handler ev) env w) !! key = localStorage w !! key.
Proof.
  intros Hkey. unfold dispatch. cbn [localStorage].
  destruct (expensesSet _); [| reflexivity].
  unfold saveEffect. apply lookup_insert_ne. congruence.
Qed.

(** X8. The page writes under its own key only: whatever else the store
    holds is the same after mounting and after any session. *)
Theorem other_keys_untouched (key : string) (steps : list (Env * Event)) (w : World) :
  key <> "expenses" ->
  localStorage (run steps w) !! key = localStorage w !! key
  /\ (forall env store w0,
        mount env store = Running w0 -> localStorage w0 !! key = store !! key).
Proof.
  intros Hkey. split.
  - revert w. induction steps as [| [env ev] rest IH]; intros w; [reflexivity |].
    cbn [run]. rewrite IH. now apply dispatch_other_key.
  - intros env store w0. unfold mount.
    assert (E : forall l, saveEffect l store !! key = store !! key).
    { intros l. unfold saveEffect. apply lookup_insert_ne. congruence. }
    destruct (loadEffect store) as [| | v].
    + intros [= <-]. apply E.
    + intros [= <-]. apply E.
    + destruct (expenses_of_json v) as [l |]; [| discriminate].
      intros [= <-]. cbn [localStorage]. unfold saveEffect at 1.
      rewrite lookup_insert_ne by congruence. apply E.
Qed.

Lemma other_keys_untouched_witness :
  localStorage (run visit {| state := state sampleWorld;
                             localStorage := themedStore;
                             log := [] |}) !! "theme"
  = Some "dark".
Proof.
  rewrite (proj1 (other_keys_untouched "theme" visit
                    {| state := state sampleWorld; localStorage := themedStore; log := [] |}
                    ltac:(discriminate))).
  apply lookup_insert_eq.
Defined.

(** ** Mounting *)

(** X10. With nothing under the key, or the empty text, the page mounts
    with the empty collection, the filter on All and the form at its
    defaults; nothing is reported, and the store then holds the text of the
    empty array. *)
Theorem mount_without_saved_text (env : Env) (store : gmap string string) :
  store !! "expenses" = None \/ store !! "expenses" = Some "" ->
  mount env store
  = Running {| state := {| expenses := [];
                           filterCategory := "All";
                           formData := {| Form.date := today env; Form.category := "Food";
                                          Form.amount := ""; Form.description := "" |} |};
               localStorage := <["expenses" := "[]"]> store;
               log := [] |}.
Proof.
  intros [H | H]; unfold mount, loadEffect; rewrite H; reflexivity.
Qed.

Lemma mount_without_saved_text_witness :
  mount sampleEnv ∅
  = Running {| state := {| expenses := [];
                           filterCategory := "All";
                           formData := {| Form.date := "2024-01-05"; Form.category := "Food";
                                          Form.amount := ""; Form.description := "" |} |};
               localStorage := <["expenses" := "[]"]> ∅;
               log := [] |}.
Proof.
  apply (mount_without_saved_text sampleEnv ∅). left. apply lookup_empty.
Defined.



(** A store that holds the text of a collection whose amounts JSON can
    carry mounts to that collection and stays as it is. *)
Lemma mount_of_stored (env : Env) (store : gmap string string) (l : list Expense) :
  store !! "expenses" = Some (JSON.stringify (expenses_to_json l)) ->
  (forall e, In e l -> json_number (amount e) = true) ->
  mount env store
  = Running {| state := setExpenses l (initialState env); localStorage := store; log := [] |}.
Proof.
  intros H Hl. unfold mount, loadEffect. rewrite H, saved_text_truthy.
  rewrite parse_stringify by now apply expenses_to_json_safe.
  rewrite expenses_of_to_json. do 2 f_equal.
  unfold saveEffect. rewrite insert_insert_eq. now apply insert_id.
Qed.

(** X24. Closing the page after a session and opening it again brings the
    collection back as the session left it, with the filter on All and the
    form at its defaults, provided every amount at the end is finite and
    not negative zero; the store is not changed by the second mount. *)
Theorem reopen_after_session
  (env env' : Env) (store : gmap string string) (w : World) (steps : list (Env * Event)) :
  mount env store = Running w ->
  (forall e, In e (expenses (state (run steps w))) -> json_number (amount e) = true) ->
  mount env' (localStorage (run steps w))
  = Running {| state := {| expenses := expenses (state (run steps w));
                           filterCategory := "All";
                           formData := {| Form.date := today env'; Form.category := "Food";
                                          Form.amount := ""; Form.description := "" |} |};
               localStorage := localStorage (run steps w);
               log := [] |}.
Proof.
  intros Hm Hl.
  apply (mount_of_stored env' _ _ (run_stored steps w (mount_stored env store w Hm)) Hl).
Qed.

Lemma reopen_after_session_witness :
  mount laterEnv (localStorage (run visit freshWorld))
  = Running {| state := {| expenses := expenses (state (run visit freshWorld));
                           filterCategory := "All";
                           formData := {| Form.date := "2024-01-05"; Form.category := "Food";
                                          Form.amount := ""; Form.description := "" |} |};
               localStorage := localStorage (run visit freshWorld);
               log := [] |}.
Proof.
  apply (reopen_after_session sampleEnv laterEnv ∅ freshWorld visit mount_empty_store).
  assert (E : expenses (state (run visit freshWorld))
              = [{| id := "1704412800001"; date := "2024-01-05"; category := "Health";
                    amount := 12.5%float; description := "" |}]) by reflexivity.
  rewrite E. intros e [<- | []]. reflexivity.
Defined.

(** ** The filter *)

Lemma dispatch_filter (ev : Event) (env : Env) (w : World) :
  filterCategory (state (dispatch (handler ev) env w))
  = match ev with
    | SelectFilter c => c
    | _ => filterCategory (state w)
    end.
Proof.
  unfold dispatch. cbn [state].
  destruct ev as [name value | c | | i | | |]; cbn [handler]; try reflexivity.
  - unfold handleAddExpense. destruct (_ || _ || _); reflexivity.
  - unfold handleDeleteAll. destruct (confirm env _); reflexivity.
  - unfold handleDeleteByCategory.
    destruct (String.eqb _ _); [reflexivity |].
    destruct (Nat.eqb _ _); [reflexivity |].
    destruct (confirm env _); reflexivity.
  - unfold downloadPDF. destruct (Nat.eqb _ _); [reflexivity |].
    destruct (pdfError env); reflexivity.
Qed.

(** X9. Only the filter select moves the filter: after any session the
    filter is the category that was selected last, or the one of the start
    when none was; adding and deleting, by row, by category or all at once,
    leave it where it is. *)
Theorem filter_is_last_selected (steps : list (Env * Event)) (w : World) :
  filterCategory (state (run steps w)) = last_filter steps (filterCategory (state w)).
Proof.
  revert w. induction steps as [| [env ev] rest IH]; intros w; [reflexivity |].
  cbn [run]. rewrite IH, dispatch_filter. destruct ev; reflexivity.
Qed.

(** ** The report and the table *)

(** X12. A click on Download never touches the cells or the store. It
    makes a document exactly when the filtered view is not empty and jsPDF
    does not throw; when jsPDF throws on a view that is not empty, the
    failure goes to the console and the user gets the generic alert. *)
Theorem downloadPDF_document (env : Env) (w : World) :
  let w' := dispatch downloadPDF env w in
  state w' = state w
  /\ localStorage w' = localStorage w
  /\ ((exists calls, In (NewPdf calls) (emitted (downloadPDF env (state w))))
      <-> filteredExpenses (state w) <> [] /\ pdfError env = None)
  /\ (filteredExpenses (state w) <> [] -> pdfError env <> None ->
      log w' = (log w ++ [ConsoleError "Error generating PDF:";
                          Alert "Failed to generate PDF"])%list).
Proof.
  cbv zeta. unfold dispatch, downloadPDF.
  destruct (filteredExpenses (state w)) as [| e l] eqn:El; cbn [length Nat.eqb].
  - cbn. split; [reflexivity | split; [reflexivity | split]].
    + split.
      * intros (calls & [H | []]). discriminate.
      * intros [H _]. congruence.
    + congruence.
  - destruct (pdfError env) as [error |]; cbn.
    + split; [reflexivity | split; [reflexivity | split]].
      * split.
        -- intros (calls & [H | [H | []]]); discriminate.
        -- intros [_ H]. discriminate.
      * reflexivity.
    + split; [reflexivity | split; [reflexivity | split]].
      * split.
        -- intros _. split; [discriminate | reflexivity].
        -- intros _. eexists. left. reflexivity.
      * congruence.
Qed.

Lemma downloadPDF_document_witness :
  log (dispatch downloadPDF failingEnv sampleWorld)
  = [ConsoleError "Error generating PDF:"; Alert "Failed to generate PDF"].
Proof.
  refine (proj2 (proj2 (proj2 (downloadPDF_document failingEnv sampleWorld))) _ _);
    discriminate.
Defined.



(** ** The cells of a row *)





(** ** The total *)

Lemma has_sign_not_below_zero (x : spec_float) : has_sign false x -> not_below_zero x.
Proof. destruct x; simpl; auto. Qed.

Lemma SFadd_not_below_zero (a b : spec_float) :
  not_below_zero a -> not_below_zero b -> not_below_zero (SFadd prec emax a b).
Proof.
  destruct a as [sa | sa | | sa ma ea], b as [sb | sb | | sb mb eb]; simpl;
    intros Ha Hb; try subst sa; try subst sb; try contradiction; try reflexivity;
    try exact I.
  - destruct sa, sb; exact I.
  - apply has_sign_not_below_zero, binary_normalize_has_sign. simpl. lia.
Qed.

Lemma not_below_zero_spec (x : float) :
  not_below_zero (Prim2SF x) <-> is_nan x = false /\ (x <? 0)%float = false.
Proof.
  unfold is_nan. rewrite FloatAxioms.eqb_spec, FloatAxioms.ltb_spec.
  change (Prim2SF 0%float) with (S754_zero false).
  destruct (Prim2SF x) as [[] | [] | | [] m e]; simpl;
    unfold SFeqb, SFltb, SFcompare;
    rewrite ?Z.compare_refl, ?compare_cont_same; simpl;
    split; intros H; try destruct H; try split; try reflexivity; try exact I;
    try discriminate; try contradiction.
Qed.

Lemma sum_not_below_zero (l : list Expense) :
  forall acc,
  not_below_zero (Prim2SF acc) ->
  (forall e, In e l -> not_below_zero (Prim2SF (amount e))) ->
  not_below_zero (Prim2SF (fold_left (fun sum expense => (sum + amount expense)%float) l acc)).
Proof.
  induction l as [| e l IH]; intros acc Hacc Hl; [exact Hacc |].
  cbn [fold_left]. apply IH.
  - rewrite FloatAxioms.add_spec. apply SFadd_not_below_zero; [exact Hacc |].
    apply Hl. now left.
  - intros x Hx. apply Hl. now right.
Qed.

(** X22. When every amount in view is a number and not below zero, so is
    the total: the running sum never turns into NaN and never goes below
    zero (it may reach infinity). *)
Theorem totalAmount_not_below_zero (s : State) :
  (forall e, In e (filteredExpenses s) ->
     is_nan (amount e) = false /\ (amount e <? 0)%float = false) ->
  is_nan (totalAmount s) = false /\ (totalAmount s <? 0)%float = false.
Proof.
  intros H. apply not_below_zero_spec. unfold totalAmount.
  apply sum_not_below_zero; [exact I |].
  intros e He. apply not_below_zero_spec, H, He.
Qed.

Lemma totalAmount_not_below_zero_witness :
  is_nan (totalAmount (state sampleWorld)) = false
  /\ (totalAmount (state sampleWorld) <? 0)%float = false.
Proof.
  apply (totalAmount_not_below_zero (state sampleWorld)).
  intros e [<- | [<- | []]]; split; reflexivity.
Defined.

Lemma is_nan_spec (x : float) : is_nan x = true <-> Prim2SF x = S754_nan.
Proof.
  unfold is_nan. rewrite FloatAxioms.eqb_spec.
  destruct (Prim2SF x) as [[] | [] | | [] m e]; simpl;
    unfold SFeqb, SFcompare; rewrite ?Z.compare_refl, ?compare_cont_same; simpl;
    split; intros H; try reflexivity; discriminate.
Qed.

Lemma sum_NaN (l : list Expense) :
  forall acc,
  Prim2SF acc = S754_nan \/ (exists e, In e l /\ Prim2SF (amount e) = S754_nan) ->
  Prim2SF (fold_left (fun sum expense => (sum + amount expense)%float) l acc) = S754_nan.
Proof.
  induction l as [| e l IH]; intros acc H.
  - destruct H as [H | (e & [] & _)]. exact H.
  - cbn [fold_left]. apply IH.
    destruct H as [H | (x & [<- | Hx] & Hnan)].
    + left. rewrite FloatAxioms.add_spec, H. reflexivity.
    + left. rewrite FloatAxioms.add_spec, Hnan. now destruct (Prim2SF acc).
    + right. exists x. split; assumption.
Qed.

(** X23. One amount in view that is not a number spoils the total: the
    sum is then NaN, and the page shows it as such under the table. *)
Theorem totalAmount_NaN (s : State) (e : Expense) :
  In e (filteredExpenses s) ->
  is_nan (amount e) = true ->
  is_nan (totalAmount s) = true
  /\ totalSection (render s) = Some "Total: INR NaN".
Proof.
  intros He Hnan.
  assert (E : Prim2SF (totalAmount s) = S754_nan).
  { unfold totalAmount. apply sum_NaN. right. exists e.
    split; [exact He | now apply is_nan_spec]. }
  split; [now apply is_nan_spec |].
  unfold render. cbn [totalSection].
  destruct (filteredExpenses s) as [| a l] eqn:El; [destruct He |].
  cbn [length Nat.eqb].
  replace (totalAmount s) with nan; [reflexivity |].
  apply FloatAxioms.Prim2SF_inj. now rewrite E.
Qed.

Lemma totalAmount_NaN_witness :
  is_nan (totalAmount unreadableState) = true
  /\ totalSection (render unreadableState) = Some "Total: INR NaN".
Proof.
  apply (totalAmount_NaN unreadableState unreadable).
  - right. left. reflexivity.
  - reflexivity.
Defined.

(** ** What the page offers *)

Lemma shown_not_empty (s : State) :
  Nat.ltb 0 (length (filteredExpenses s)) = true ->
  Nat.eqb (length (filteredExpenses s)) 0 = false.
Proof. intros H. apply Nat.ltb_lt in H. apply Nat.eqb_neq. lia. Qed.

(** X15. The guards of Download and of Delete Category never fire from
    the page: an event that the page offers raises no alert about an empty
    view or a missing selection, since the buttons are only there when
    there is something in view and, for Delete Category, a category is
    selected. The alerts left are the one of the form and the one of a
    failed document. *)
Theorem offered_event_passes_guards (ev : Event) (env : Env) (s : State) :
  offers (render s) ev = true ->
  List.Forall passes_guards (emitted (handler ev env s)).
Proof.
  intros H. destruct ev as [name value | c | | i | | |]; cbn [handler offers] in *.
  - constructor.
  - constructor.
  - unfold handleAddExpense. destruct (_ || _ || _); cbn [emitted unchanged].
    + constructor; [left; reflexivity | constructor].
    + constructor.
  - constructor.
  - unfold handleDeleteAll. destruct (confirm env _); cbn [emitted unchanged];
      (constructor; [exact I | constructor]).
  - unfold render in H. cbn [deleteCategoryButton] in H.
    apply andb_true_iff in H as [Hshown Hc]. apply negb_true_iff in Hc.
    pose proof (shown_not_empty s Hshown) as Hsome.
    rewrite (filteredExpenses_category s Hc) in Hsome.
    unfold handleDeleteByCategory. rewrite Hc, Hsome.
    destruct (confirm env _); cbn [emitted unchanged];
      (constructor; [exact I | constructor]).
  - unfold render in H. cbn [downloadButton] in H.
    unfold downloadPDF. rewrite (shown_not_empty s H).
    destruct (pdfError env); cbn [emitted unchanged].
    + constructor; [exact I |]. constructor; [right; reflexivity | constructor].
    + constructor; [exact I | constructor].
Qed.

Lemma offered_event_passes_guards_witness :
  List.Forall passes_guards
    (emitted (handler ClickDeleteCategory sampleEnv (state sampleWorld))).
Proof.
  exact (offered_event_passes_guards ClickDeleteCategory sampleEnv (state sampleWorld) eq_refl).
Defined.

Lemma existsb_eqb_In (x : string) (l : list string) :
  existsb (String.eqb x) l = true -> In x l.
Proof.
  intros H. apply existsb_exists in H as (y & Hy & E).
  apply String.eqb_eq in E. now subst.
Qed.


Lemma offered_within_options (ev : Event) (env : Env) (w : World) :
  offers (render (state w)) ev = true ->
  within_options (state w) ->
  within_options (state (dispatch (handler ev) env w)).
Proof.
  intros Hev (Hfilter & Hform & Hl). unfold within_options.
  split; [| split].
  - rewrite dispatch_filter. destruct ev; try assumption.
    cbn [offers render filterOptions] in Hev. now apply existsb_eqb_In.
  - unfold dispatch. cbn [state].
    destruct ev as [name value | c | | i | | |]; cbn [handler]; try assumption.
    + cbn [offers render categoryOptions] in Hev.
      unfold handleInputChange. cbn [next unchanged setFormData formData].
      destruct (String.eqb_spec name "date"); [assumption |].
      destruct (String.eqb_spec name "category"); cbn [Form.category].
      * apply existsb_eqb_In. subst name. revert Hev.
        destruct (existsb (String.eqb value) categories); [reflexivity | discriminate].
      * destruct (String.eqb name "amount"); [assumption |].
        destruct (String.eqb name "description"); assumption.
    + unfold handleAddExpense. destruct (_ || _ || _); [assumption |].
      left. reflexivity.
    + unfold handleDeleteAll. destruct (confirm env _); assumption.
    + unfold handleDeleteByCategory.
      destruct (String.eqb _ _); [assumption |].
      destruct (Nat.eqb _ _); [assumption |].
      destruct (confirm env _); assumption.
    + unfold downloadPDF. destruct (Nat.eqb _ _); [assumption |].
      destruct (pdfError env); assumption.
  - rewrite List.Forall_forall in *.
    destruct (dispatch_expenses ev env w) as [Hsub | (_ & _ & _ & _ & ->)].
    + intros e He. apply Hl. now apply (sublist_In _ _ _ Hsub).
    + intros e [<- | He]; [exact Hform | now apply Hl].
Qed.

(** X16. Along a session in which every event is one the page offers, the
    filter stays an option of the filter select (All or one of the seven
    categories), the category of the form stays one of the seven, and so
    does the category of every entry, given that this holds at the start,
    as it does on a fresh page. *)
Theorem selections_stay_within_options (steps : list (Env * Event)) (w : World) :
  offered steps w = true ->
  within_options (state w) ->
  within_options (state (run steps w)).
Proof.
  revert w. induction steps as [| [env ev] rest IH]; intros w Hsteps Hw; [exact Hw |].
  cbn [offered] in Hsteps. apply andb_true_iff in Hsteps as [Hev Hrest].
  cbn [run]. apply IH; [exact Hrest |]. now apply offered_within_options.
Qed.

Lemma selections_stay_within_options_witness :
  within_options (state (run visit sampleWorld)).
Proof.
  apply (selections_stay_within_options visit sampleWorld eq_refl).
  split; [right; left; reflexivity |].
  split; [left; reflexivity |].
  apply List.Forall_forall. intros e [<- | [<- | [<- | []]]]; cbn; auto 10.
Defined.






(** ** Sessions *)

(** X19. Adding an entry and deleting it again by its id brings the
    collection, and the text in the store, back to what they were, as long
    as no entry already carried the id that the clock gave. *)
Theorem add_then_delete_restores (env env' : Env) (w : World) :
  Form.date (formData (state w)) <> "" ->
  Form.category (formData (state w)) <> "" ->
  Form.amount (formData (state w)) <> "" ->
  (forall e, In e (expenses (state w)) -> id e <> JS.toString (Date_now env)) ->
  let w' := run [(env, ClickAdd); (env', ClickDelete (JS.toString (Date_now env)))] w in
  expenses (state w') = expenses (state w)
  /\ localStorage w' !! "expenses"
     = Some (JSON.stringify (expenses_to_json (expenses (state w)))).
Proof.
  intros Hd Hc Ha Hfresh. cbv zeta. cbn [run handler].
  assert (E : expenses (state (dispatch (handleDeleteExpense (JS.toString (Date_now env))) env'
                                 (dispatch handleAddExpense env w)))
              = expenses (state w)).
  { unfold dispatch, handleDeleteExpense. cbn [state next setExpenses expenses].
    unfold handleAddExpense.
    rewrite (falsy_nonempty _ Hd), (falsy_nonempty _ Hc), (falsy_nonempty _ Ha).
    cbn [orb next setFormData setExpenses expenses List.filter newExpense id].
    rewrite String.eqb_refl. cbn [negb].
    apply filter_keeps_all. intros e He. apply other_id_iff. now apply Hfresh. }
  split; [exact E |].
  rewrite <- E. unfold dispatch at 1. cbn [localStorage handleDeleteExpense expensesSet next].
  unfold saveEffect. rewrite lookup_insert_eq. reflexivity.
Qed.

Lemma add_then_delete_restores_witness :
  expenses (state (run [(laterEnv, ClickAdd); (sampleEnv, ClickDelete "1704412800001")]
                       {| state := setExpenses [dinner; lunch] (state sampleWorld);
                          localStorage := ∅; log := [] |}))
  = [dinner; lunch].
Proof.
  refine (proj1 (add_then_delete_restores laterEnv sampleEnv
                   {| state := setExpenses [dinner; lunch] (state sampleWorld);
                      localStorage := ∅; log := [] |} _ _ _ _));
    try discriminate.
  intros e [<- | [<- | []]]; discriminate.
Defined.

(** X20. The collection grows by clicks on Add only, one entry at most
    for each: after a session it has no more entries than it had at the
    start plus the number of clicks on Add. *)
Theorem growth_bounded_by_adds (steps : list (Env * Event)) (w : World) :
  (length (expenses (state (run steps w)))
   <= length (expenses (state w)) + length (add_times steps))%nat.
Proof.
  revert w. induction steps as [| [env ev] rest IH]; intros w; [simpl; lia |].
  cbn [run]. specialize (IH (dispatch (handler ev) env w)).
  destruct (dispatch_expenses ev env w) as [Hsub | (-> & _ & _ & _ & Hl)].
  - apply sublist_length in Hsub.
    assert (length (add_times rest) <= length (add_times ((env, ev) :: rest)))%nat
      by (destruct ev; cbn [add_times length]; lia).
    lia.
  - rewrite Hl in IH. cbn [add_times length] in *. lia.
Qed.

(** X21. Typing into the form: a later text in the same field replaces the
    earlier one, and texts typed into two different fields do not depend on
    the order in which they were typed. The collection and the filter are
    not touched. *)
Theorem handleInputChange_fields (name1 name2 value1 value2 : string) (env : Env) (s : State) :
  let typed name value s := next (handleInputChange name value env s) in
  typed name1 value2 (typed name1 value1 s) = typed name1 value2 s
  /\ (name1 <> name2 ->
      typed name2 value2 (typed name1 value1 s) = typed name1 value1 (typed name2 value2 s))
  /\ expenses (typed name1 value1 s) = expenses s
  /\ filterCategory (typed name1 value1 s) = filterCategory s.
Proof.
  cbv zeta. unfold handleInputChange, setFormData.
  cbn [next unchanged formData expenses filterCategory].
  split; [| split; [| split; reflexivity]].
  - destruct (String.eqb name1 "date"); [reflexivity |].
    destruct (String.eqb name1 "category"); [reflexivity |].
    destruct (String.eqb name1 "amount"); [reflexivity |].
    destruct (String.eqb name1 "description"); [reflexivity |].
    now destruct s.
  - intros Hne.
    destruct (String.eqb_spec name1 "date"), (String.eqb_spec name2 "date");
      try congruence;
      destruct (String.eqb_spec name1 "category"), (String.eqb_spec name2 "category");
      try congruence;
      destruct (String.eqb_spec name1 "amount"), (String.eqb_spec name2 "amount");
      try congruence;
      destruct (String.eqb_spec name1 "description"), (String.eqb_spec name2 "description");
      try congruence; reflexivity.
Qed.

Lemma handleInputChange_fields_witness :
  formData (next (handleInputChange "amount" "12.5" sampleEnv
                    (next (handleInputChange "category" "Health" sampleEnv
                             (state sampleWorld)))))
  = formData (next (handleInputChange "category" "Health" sampleEnv
                      (next (handleInputChange "amount" "12.5" sampleEnv
                               (state sampleWorld))))).
Proof.
  exact (f_equal formData
           (proj1 (proj2 (handleInputChange_fields "category" "amount" "Health" "12.5"
                            sampleEnv (state sampleWorld)))
              ltac:(discriminate))).
Defined.
